(** * gomplate [data] package: datasource resolution, media types, caching

    A shallow embedding of the datasource engine of the [data] package:

    - [mimeAlias], [Source.mimeType] and [guessMimeType] (mimetypes.go),
    - [resolveURL], [splitFSMuxURL], [lookupReader] and [Data.readSource]
      (datasource.go),
    - [parseDatasourceURLArgs], [readAWSSMP], [readAWSSMPParam] and
      [listAWSSMPParams] (datasource_awssmp.go),
    - [FromConfig], [DefineDatasource], [DatasourceExists], [lookupSource],
      [readDataSource], [Include], [Datasource], [parseData],
      [DatasourceReachable] and [ListDatasources] (datasource.go).

    Go strings are byte strings and are modelled by [string] (a list of
    bytes).  A function that returns [(T, error)] returns a [result T], which
    is a value, an error or a run-time panic.  Code that mutates a [Source]
    or the [Data] through a pointer, or that talks to a backend, is written
    in state-passing style: it takes and returns the pointee and the outside
    world.  Pointers are taken to be non-nil where the code dereferences
    them unconditionally ([Source.URL]); interface values that the code
    tests against nil are options.

    What the package calls and does not define is collected in interfaces:
    [url.Lib], [mime.Lib] and [path.Lib] for the Go standard library,
    [fsimpl.Lib] for the filesystem mux, [Helpers], [Readers] and
    [Decoders] for the functions of the package that live in other files,
    [config.Lib] for the internal configuration package.  Every property is
    proved for all implementations of the interfaces.  [Ref] implements the
    library interfaces on a fragment of their inputs, [Stub] is a parameter
    store that logs its calls and [MemFS] a filesystem provider in memory;
    the evaluation parts run the package on them. *)

From stdpp Require Import base option strings gmap list sorting.
From Stdlib Require Import Ascii ZArith Lia.

Local Open Scope Z_scope.
Local Open Scope stdpp_scope.

(** ** Go's [strings] and [path/filepath] helpers used by the package *)

Module GoStrings.

(** [s[n:]]; the callers below only slice within bounds. *)
Fixpoint drop_bytes (n : nat) (s : string) : string :=
  match n, s with
  | O, _ => s
  | S n', String _ s' => drop_bytes n' s'
  | S _, EmptyString => EmptyString
  end.

(** [strings.HasPrefix(s, prefix)]. *)
Fixpoint HasPrefix (s prefix : string) {struct prefix} : bool :=
  match prefix, s with
  | EmptyString, _ => true
  | String p ps, String c cs => if decide (p = c) then HasPrefix cs ps else false
  | String _ _, EmptyString => false
  end.

(** [strings.HasSuffix(s, suffix)]:
    [len(s) >= len(suffix) && s[len(s)-len(suffix):] == suffix]. *)
Definition HasSuffix (s suffix : string) : bool :=
  if decide (String.length suffix <= String.length s)%nat
  then bool_decide (drop_bytes (String.length s - String.length suffix) s = suffix)
  else false.

(** [strings.TrimPrefix(s, prefix)]. *)
Definition TrimPrefix (s prefix : string) : string :=
  if HasPrefix s prefix then drop_bytes (String.length prefix) s else s.

(** [strings.ReplaceAll(s, old, new)] for one-byte [old] and [new], the only
    form the package uses ([ReplaceAll(mediatype, " ", "+")]). *)
Fixpoint ReplaceAll (s : string) (old new : ascii) : string :=
  match s with
  | EmptyString => EmptyString
  | String c s' => String (if decide (c = old) then new else c) (ReplaceAll s' old new)
  end.

(** [strings.Join(elems, sep)]. *)
Fixpoint Join (elems : list string) (sep : string) : string :=
  match elems with
  | [] => ""
  | [e] => e
  | e :: rest => e +:+ sep +:+ Join rest sep
  end.

(** The loop of [filepath.Ext]: [i] bytes are still to be inspected, from
    [path[i-1]] downwards; it stops at a path separator. *)
Fixpoint ext_loop (path : string) (i : nat) : string :=
  match i with
  | O => ""
  | S j =>
      match String.get j path with
      | Some c =>
          if decide (c = "/"%char) then ""
          else if decide (c = "."%char) then drop_bytes j path
          else ext_loop path j
      | None => ""
      end
  end.

(** [filepath.Ext(path)] (with [/] as the path separator). *)
Definition Ext (path : string) : string := ext_loop path (String.length path).

(** [strconv.Itoa] on a natural number, as [%d] prints a length. *)
Definition digit (n : nat) : ascii := ascii_of_nat (48 + n).

Fixpoint itoa_loop (fuel n : nat) (acc : string) : string :=
  match fuel with
  | O => acc
  | S fuel' =>
      let acc' := String (digit (n mod 10)) acc in
      if decide (n / 10 = 0)%nat then acc' else itoa_loop fuel' (n / 10) acc'
  end.

Definition Itoa (n : nat) : string := itoa_loop (S n) n "".

End GoStrings.

Import GoStrings.

(** ** Errors and results *)

(** An argument of a format string. *)
Inductive fmtarg :=
| FStr (s : string)     (* printed with %s or %q *)
| FInt (n : nat)        (* printed with %d *)
| FVal (repr : string). (* a struct printed with %v or %q, by its text *)

(** Go [error] values.  [LibError] is an error returned by a library or a
    backend; [Errorf] is [fmt.Errorf]/[errors.Errorf] without a cause;
    [Wrapf] is [errors.Wrapf(cause, ...)] or [fmt.Errorf("...%w", ..., cause)].
    Formats are kept with their arguments. *)
Inductive error :=
| LibError (msg : string)
| Errorf (format : string) (args : list fmtarg)
| Wrapf (cause : error) (format : string) (args : list fmtarg).

(** The outcome of a call: a value, a returned [error], or a run-time panic
    (a nil interface, a slice out of range). *)
Inductive result (A : Type) :=
| Ok (a : A)
| Err (e : error)
| Panic (msg : string).
Arguments Ok {A} a.
Arguments Err {A} e.
Arguments Panic {A} msg.

Definition is_Ok {A} (r : result A) : bool :=
  match r with Ok _ => true | _ => false end.

Definition is_Err {A} (r : result A) : bool :=
  match r with Err _ => true | _ => false end.

(** [fmt.Sprintf] for the verbs [%s] and [%d]. *)
Fixpoint Sprintf (format : string) (args : list fmtarg) : string :=
  match format with
  | String "%" (String v rest) =>
      match args with
      | FStr s :: args' =>
          if decide (v = "s"%char) then s +:+ Sprintf rest args'
          else String "%" (String v (Sprintf rest args))
      | FInt n :: args' =>
          if decide (v = "d"%char) then Itoa n +:+ Sprintf rest args'
          else String "%" (String v (Sprintf rest args))
      | _ => String "%" (String v (Sprintf rest args))
      end
  | String c rest => String c (Sprintf rest args)
  | EmptyString => EmptyString
  end.

(** ** Media type constants and aliases (mimetypes.go) *)

Definition textMimetype : string := "text/plain".
Definition csvMimetype : string := "text/csv".
Definition jsonMimetype : string := "application/json".
Definition jsonArrayMimetype : string := "application/array+json".
Definition tomlMimetype : string := "application/toml".
Definition yamlMimetype : string := "application/yaml".
Definition envMimetype : string := "application/x-env".

(** [mimeTypeAliases]: non-canonical spellings seen in the wild. *)
Definition mimeTypeAliases : gmap string string :=
  <["application/x-yaml" := yamlMimetype]>
  (<["application/text" := textMimetype]> ∅).

Definition mimeAlias (m : string) : string :=
  match mimeTypeAliases !! m with
  | Some a => a
  | None => m
  end.

(** ** [net/url] data *)

Module url.

Record Userinfo := mkUserinfo {
  username : string;
  password : string;
  passwordSet : bool
}.

(** [url.URL]; [User] is a possibly nil pointer to a [Userinfo]. *)
Record URL := mkURL {
  Scheme : string;
  Opaque : string;
  User : option Userinfo;
  Host : string;
  Path : string;
  RawPath : string;
  ForceQuery : bool;
  RawQuery : string;
  Fragment : string;
  RawFragment : string
}.

Definition set_Scheme (v : string) (u : URL) : URL :=
  mkURL v (Opaque u) (User u) (Host u) (Path u) (RawPath u) (ForceQuery u)
        (RawQuery u) (Fragment u) (RawFragment u).
Definition set_Opaque (v : string) (u : URL) : URL :=
  mkURL (Scheme u) v (User u) (Host u) (Path u) (RawPath u) (ForceQuery u)
        (RawQuery u) (Fragment u) (RawFragment u).
Definition set_User (v : option Userinfo) (u : URL) : URL :=
  mkURL (Scheme u) (Opaque u) v (Host u) (Path u) (RawPath u) (ForceQuery u)
        (RawQuery u) (Fragment u) (RawFragment u).
Definition set_Host (v : string) (u : URL) : URL :=
  mkURL (Scheme u) (Opaque u) (User u) v (Path u) (RawPath u) (ForceQuery u)
        (RawQuery u) (Fragment u) (RawFragment u).
Definition set_Path (v : string) (u : URL) : URL :=
  mkURL (Scheme u) (Opaque u) (User u) (Host u) v (RawPath u) (ForceQuery u)
        (RawQuery u) (Fragment u) (RawFragment u).
Definition set_RawPath (v : string) (u : URL) : URL :=
  mkURL (Scheme u) (Opaque u) (User u) (Host u) (Path u) v (ForceQuery u)
        (RawQuery u) (Fragment u) (RawFragment u).
Definition set_RawQuery (v : string) (u : URL) : URL :=
  mkURL (Scheme u) (Opaque u) (User u) (Host u) (Path u) (RawPath u) (ForceQuery u)
        v (Fragment u) (RawFragment u).
Definition set_Fragment (v raw : string) (u : URL) : URL :=
  mkURL (Scheme u) (Opaque u) (User u) (Host u) (Path u) (RawPath u) (ForceQuery u)
        (RawQuery u) v raw.

(** The zero [url.URL]. *)
Definition zero : URL := mkURL "" "" None "" "" "" false "" "" "".

(** [url.Values] is [map[string][]string]. *)
Abbreviation Values := (gmap string (list string)).

(** [Values.Get]: the first value of the key, or the empty string. *)
Definition Get (v : Values) (key : string) : string :=
  match v !! key with
  | Some (x :: _) => x
  | _ => ""
  end.

(** [Values.Set]: replaces the values of the key by the one value. *)
Definition Set_ (v : Values) (key value : string) : Values :=
  <[key := [value]]> v.

(** The functions of [net/url] the package calls.  [ParseQuery] returns the
    values it could parse together with the first error, if any. *)
Class Lib := {
  Parse : string -> result URL;
  ParseQuery : string -> Values * option error;
  Encode : Values -> string;
  ResolveReference : URL -> URL -> URL;
  String_ : URL -> string;
  (** The errors of [Parse] are the library's own ([*url.Error]). *)
  Parse_error :
    forall s e, Parse s = Err e -> exists msg, e = LibError msg;
  (** [ResolveReference] starts from a copy of [ref] and takes the query of
      the base only when [ref] has neither path nor query; so with a base
      that has no query the result has the query of [ref]. *)
  ResolveReference_RawQuery :
    forall u ref, RawQuery u = "" -> RawQuery (ResolveReference u ref) = RawQuery ref
}.

(** [URL.Query]: [v, _ := ParseQuery(u.RawQuery); return v]. *)
Definition Query `{Lib} (u : URL) : Values := fst (ParseQuery (RawQuery u)).

End url.

(** ** [mime] and [path] *)

Module mime.

(** [TypeByExtension] reads the process-wide extension table (the system's
    and the types registered by [regExtension] in [init]); [ParseMediaType]
    returns the media type and its parameters. *)
Class Lib := {
  TypeByExtension : string -> string;
  ParseMediaType : string -> result (string * gmap string string)
}.

End mime.

Module path.

Class Lib := {
  Join : list string -> string
}.

End path.

(** ** [splitFSMuxURL] (datasource.go) *)

(** Splits a URL into a filesystem URL and a relative file path.  The first
    statement copies the struct, so the input is left alone. *)
Definition splitFSMuxURL (i : url.URL) : url.URL * string :=
  let u := i in
  let base := TrimPrefix (url.Path u) "/" in
  let '(u, base) :=
    if bool_decide (base = "") && negb (bool_decide (url.Opaque u = ""))
    then (url.set_Opaque "" u, url.Opaque u)
    else (u, base) in
  let base := if bool_decide (base = "") then "." else base in
  let u := url.set_Path "/" u in
  (u, base).

(** ** Sources (datasource.go) and the AWS parameter store client *)

(** [[]byte]. *)
Abbreviation bytes := string.

Module ssm.

(** [ssm.Parameter] ([Parameter] is a reserved word), with the fields a
    parameter store answer carries. *)
Record Parameter_ := mkParameter {
  Name : string;
  Type_ : string;
  Value : string;
  Version : Z
}.

Record GetParameterInput := mkGetParameterInput {
  gpName : string;
  WithDecryption : bool
}.

Record GetParametersByPathInput := mkGetParametersByPathInput {
  gpPath : string
}.

Record GetParameterOutput := mkGetParameterOutput {
  outParameter : Parameter_
}.

Record GetParametersByPathOutput := mkGetParametersByPathOutput {
  outParameters : list Parameter_;
  NextToken : option string
}.

End ssm.

(** [awssmpGetter]: the subset of the SSM API the reader uses.  A call acts
    on the outside world, of type [World]. *)
Record awssmpGetter (World : Type) := mkGetter {
  GetParameterWithContext :
    ssm.GetParameterInput -> World -> World * result ssm.GetParameterOutput;
  GetParametersByPathWithContext :
    ssm.GetParametersByPathInput -> World -> World * result ssm.GetParametersByPathOutput
}.
Arguments mkGetter {World} _ _.
Arguments GetParameterWithContext {World} _ _ _.
Arguments GetParametersByPathWithContext {World} _ _ _.

(** [Source], a data source.  [asmpg] is a possibly nil interface value.  The
    [kv] handle of the consul readers is not part of the functions below. *)
Record Source (World : Type) := mkSource {
  Alias : string;
  URL : url.URL;
  Header : gmap string (list string);
  asmpg : option (awssmpGetter World);
  mediaType : string
}.
Arguments mkSource {World} _ _ _ _ _.
Arguments Alias {World} _.
Arguments URL {World} _.
Arguments Header {World} _.
Arguments asmpg {World} _.
Arguments mediaType {World} _.

Definition set_asmpg {World} (g : option (awssmpGetter World)) (s : Source World) : Source World :=
  mkSource (Alias s) (URL s) (Header s) g (mediaType s).

Definition set_mediaType {World} (m : string) (s : Source World) : Source World :=
  mkSource (Alias s) (URL s) (Header s) (asmpg s) m.

(** What [ToJSON] is applied to. *)
Inductive jsonInput :=
| JParameter (p : ssm.Parameter_)
| JStrings (l : list string).

(** Functions of the package and of the AWS SDK that the readers call and
    that are defined elsewhere: [ssm.New(gaws.SDKSession())] and [ToJSON]
    (data.go). *)
Class Helpers (World : Type) := {
  ssm_New : World -> World * awssmpGetter World;
  ToJSON : jsonInput -> result string
}.

(** [for key, val := range src { dst[key] = f(val) }].  The keys of a map are
    distinct, so the order of the iteration does not matter. *)
Definition range_assign {A B} (f : A -> B) (src : gmap string A) (dst : gmap string B) : gmap string B :=
  map_fold (fun key val acc => <[key := f val]> acc) dst src.

Section MimeTypes.
Context {World : Type} `{!url.Lib} `{!mime.Lib}.

(** [func (s *Source) mimeType(arg string) (mimeType string, err error)] *)
Definition mimeType (s : Source World) (arg : string) : result string :=
  let arg :=
    if decide (0 < String.length arg)%nat then
      let arg := if HasPrefix arg "//" then drop_bytes 1 arg else arg in
      let arg := if negb (HasPrefix arg "/") then "/" +:+ arg else arg in
      arg
    else arg in
  match url.Parse arg with
  | Err err => Err (Wrapf err "mimeType: couldn't parse arg %q: %w" [FStr arg])
  | Panic msg => Panic msg
  | Ok argURL =>
      let mediatype := url.Get (url.Query argURL) "type" in
      let mediatype :=
        if bool_decide (mediatype = "") then url.Get (url.Query (URL s)) "type"
        else mediatype in
      let mediatype :=
        if bool_decide (mediatype = "") then mediaType s else mediatype in
      (* make it so + doesn't need to be escaped *)
      let mediatype := ReplaceAll mediatype " " "+" in
      let mediatype :=
        if bool_decide (mediatype = "")
        then mime.TypeByExtension (Ext (url.Path argURL))
        else mediatype in
      let mediatype :=
        if bool_decide (mediatype = "")
        then mime.TypeByExtension (Ext (url.Path (URL s)))
        else mediatype in
      if negb (bool_decide (mediatype = "")) then
        match mime.ParseMediaType mediatype with
        | Err err => Err (Wrapf err "MIME type was %q" [FStr mediatype])
        | Panic msg => Panic msg
        | Ok (t, _) => Ok t
        end
      else Ok textMimetype
  end.

(** [func guessMimeType(base *url.URL, name, mimeGuess string) (mimeType string, err error)] *)
Definition guessMimeType (base : url.URL) (name mimeGuess : string) : result string :=
  let name :=
    if decide (0 < String.length name)%nat then
      let name := if HasPrefix name "//" then drop_bytes 1 name else name in
      let name := if negb (HasPrefix name "/") then "/" +:+ name else name in
      name
    else name in
  match url.Parse name with
  | Err err => Err (Wrapf err "mimeType: couldn't parse name %q: %w" [FStr name])
  | Panic msg => Panic msg
  | Ok nameURL =>
      let mediatype := url.Get (url.Query nameURL) "type" in
      let mediatype :=
        if bool_decide (mediatype = "") then url.Get (url.Query base) "type"
        else mediatype in
      let mediatype :=
        if bool_decide (mediatype = "") then mimeGuess else mediatype in
      (* make it so + doesn't need to be escaped *)
      let mediatype := ReplaceAll mediatype " " "+" in
      let mediatype :=
        if bool_decide (mediatype = "")
        then mime.TypeByExtension (Ext (url.Path nameURL))
        else mediatype in
      let mediatype :=
        if bool_decide (mediatype = "")
        then mime.TypeByExtension (Ext (url.Path base))
        else mediatype in
      if negb (bool_decide (mediatype = "")) then
        match mime.ParseMediaType mediatype with
        | Err err => Err (Wrapf err "MIME type was %q" [FStr mediatype])
        | Panic msg => Panic msg
        | Ok (t, _) => Ok t
        end
      else Ok textMimetype
  end.

End MimeTypes.

(** ** The aws+smp reader (datasource_awssmp.go) *)

(** [s[n:]] with its bounds check. *)
Definition slice_from (n : nat) (s : string) : option string :=
  if decide (n <= String.length s)%nat then Some (drop_bytes n s) else None.

Section AWSSMP.
Context {World : Type} `{!url.Lib} `{!path.Lib} `{!Helpers World}.

(** [func parseDatasourceURLArgs(sourceURL *url.URL, args ...string)
       (params map[string]interface{}, p string, err error)] *)
Definition parseDatasourceURLArgs (sourceURL : url.URL) (args : list string)
  : result (gmap string string * string) :=
  if decide (2 <= length args)%nat then
    Err (Errorf "maximum two arguments to %s datasource: alias, extraPath (found %d)"
                [FStr (url.Scheme sourceURL); FInt (length args)])
  else
    let p := url.Path sourceURL in
    let params := range_assign (fun val => Join val " ") (url.Query sourceURL) ∅ in
    let p :=
      if bool_decide (p = "") && negb (bool_decide (url.Opaque sourceURL = ""))
      then url.Opaque sourceURL else p in
    match args with
    | [arg0] =>
        match url.Parse arg0 with
        | Err err => Err err
        | Panic msg => Panic msg
        | Ok parsed =>
            let p :=
              if negb (bool_decide (url.Path parsed = "")) then
                let p := path.Join [p; url.Path parsed] in
                if HasSuffix (url.Path parsed) "/" then p +:+ "/" else p
              else p in
            let params :=
              range_assign (fun val => Join val " ") (url.Query parsed) params in
            Ok (params, p)
        end
    | _ => Ok (params, p)
    end.

(** [func readAWSSMPParam(ctx, source *Source, paramPath string) ([]byte, error)] *)
Definition readAWSSMPParam (source : Source World) (paramPath : string) (w : World)
  : World * result bytes :=
  let input := ssm.mkGetParameterInput paramPath true in
  match asmpg source with
  | None => (w, Panic "nil pointer dereference")
  | Some g =>
      let '(w, r) := GetParameterWithContext g input w in
      match r with
      | Err err =>
          (w, Err (Wrapf err
             "Error reading aws+smp from AWS using GetParameter with input %v"
             [FVal paramPath]))
      | Panic msg => (w, Panic msg)
      | Ok response =>
          let result := ssm.outParameter response in
          (w, ToJSON (JParameter result))
      end
  end.

(** [func listAWSSMPParams(ctx, source *Source, paramPath string) ([]byte, error)]:
    supports directory semantics, returns array. *)
Definition listAWSSMPParams (source : Source World) (paramPath : string) (w : World)
  : World * result bytes :=
  let input := ssm.mkGetParametersByPathInput paramPath in
  match asmpg source with
  | None => (w, Panic "nil pointer dereference")
  | Some g =>
      let '(w, r) := GetParametersByPathWithContext g input w in
      match r with
      | Err err =>
          (w, Err (Wrapf err
             "Error reading aws+smp from AWS using GetParameter with input %v"
             [FVal paramPath]))
      | Panic msg => (w, Panic msg)
      | Ok response =>
          (* listing[i] = p.Name[len(paramPath):] *)
          match mapM (fun p => slice_from (String.length paramPath) (ssm.Name p))
                     (ssm.outParameters response) with
          | None => (w, Panic "slice bounds out of range")
          | Some listing => (w, ToJSON (JStrings listing))
          end
      end
  end.

(** [func readAWSSMP(ctx, source *Source, args ...string) (data []byte, err error)].
    The source is mutated through its pointer: the updated source is returned
    beside the result. *)
Definition readAWSSMP (source : Source World) (args : list string) (w : World)
  : World * Source World * result bytes :=
  let '(w, source) :=
    match asmpg source with
    | None => let '(w, g) := ssm_New w in (w, set_asmpg (Some g) source)
    | Some _ => (w, source)
    end in
  match parseDatasourceURLArgs (URL source) args with
  | Err err => (w, source, Err err)
  | Panic msg => (w, source, Panic msg)
  | Ok (_, paramPath) =>
      let source := set_mediaType jsonMimetype source in
      if HasSuffix paramPath "/" then
        let source := set_mediaType jsonArrayMimetype source in
        let '(w, r) := listAWSSMPParams source paramPath w in
        (w, source, r)
      else
        let '(w, r) := readAWSSMPParam source paramPath w in
        (w, source, r)
  end.

End AWSSMP.

(** ** [resolveURL] (datasource.go) *)

Section ResolveURL.
Context `{!url.Lib}.

(** [resolveURL] parses the relative URL [rel] against [base], and returns the
    resolved URL.  Differs from [url.ResolveReference] in that query
    parameters are added.  In case of duplicates, params from [rel] are used. *)
Definition resolveURL (base : url.URL) (rel : string) : result url.URL :=
  match url.Parse rel with
  | Err err => Err err
  | Panic msg => Panic msg
  | Ok relURL =>
      let out := url.ResolveReference base relURL in
      if negb (bool_decide (url.RawQuery base = "")) then
        let bq := url.Query base in
        let rq := url.Query relURL in
        (* for k := range rq { bq.Set(k, rq.Get(k)) } *)
        let bq := map_fold (fun k _ bq => url.Set_ bq k (url.Get rq k)) bq rq in
        Ok (url.set_RawQuery (url.Encode bq) out)
      else Ok out
  end.

End ResolveURL.

(** ** Filesystems ([io/fs], go-fsimpl) *)

Module fsimpl.

(** What the code reads off an [fs.FileInfo]: [fi.IsDir()] and
    [fsimpl.ContentType(fi)]. *)
Record FileInfo := mkFileInfo {
  IsDir : bool;
  ContentType : string
}.

(** An open [fs.File]: [f.Stat()] and [ioutil.ReadAll(f)]. *)
Record File (World : Type) := mkFile {
  Stat : World -> World * result FileInfo;
  ReadAll : World -> World * result bytes
}.
Arguments mkFile {World} _ _.
Arguments Stat {World} _ _.
Arguments ReadAll {World} _ _.

(** An [fs.FS]: [fsys.Open(name)] and [fs.ReadDir(fsys, name)], the latter
    giving the names of the entries. *)
Record FS (World : Type) := mkFS {
  Open : string -> World -> World * result (File World);
  ReadDir : string -> World -> World * result (list string)
}.
Arguments mkFS {World} _ _.
Arguments Open {World} _ _ _.
Arguments ReadDir {World} _ _ _.

(** [fsimpl.FSMux]: [Lookup(url)] finds the filesystem of a URL. *)
Record FSMux (World : Type) := mkFSMux {
  Lookup : string -> World -> World * result (FS World)
}.
Arguments mkFSMux {World} _.
Arguments Lookup {World} _ _ _.

(** [fsimpl.NewMux()] with the providers [readSource] adds (file, http, blob,
    git, vault, aws+sm, env), and [json.Marshal] on a list of names. *)
Class Lib (World : Type) := {
  NewMux : FSMux World;
  json_Marshal : list string -> result bytes
}.

End fsimpl.

(** ** [Data] and the reader registry (datasource.go) *)

Record fileContent := mkFileContent {
  b : bytes;
  contentType : string
}.

(** The functions registered by [registerReaders], by name. *)
Inductive reader :=
| ReadAWSSMP
| ReadConsul
| ReadMerge
| ReadStdin.

(** [Data].  [sourceReaders] is nil until [lookupReader] registers the
    readers; a nil [cache] reads as the empty map and [readSource] allocates
    it before anything is written, so it is modelled by the map alone;
    [FSMux] is a possibly nil interface value.  [Ctx] is part of the world. *)
Record Data (World : Type) := mkData {
  Sources : gmap string (Source World);
  sourceReaders : option (gmap string reader);
  cache : gmap string fileContent;
  ExtraHeaders : gmap string (gmap string (list string));
  FSMux : option (fsimpl.FSMux World)
}.
Arguments mkData {World} _ _ _ _ _.
Arguments Sources {World} _.
Arguments sourceReaders {World} _.
Arguments cache {World} _.
Arguments ExtraHeaders {World} _.
Arguments FSMux {World} _.

Definition set_sourceReaders {World} (r : option (gmap string reader)) (d : Data World) : Data World :=
  mkData (Sources d) r (cache d) (ExtraHeaders d) (FSMux d).

Definition set_cache {World} (c : gmap string fileContent) (d : Data World) : Data World :=
  mkData (Sources d) (sourceReaders d) c (ExtraHeaders d) (FSMux d).

Definition set_FSMux {World} (m : option (fsimpl.FSMux World)) (d : Data World) : Data World :=
  mkData (Sources d) (sourceReaders d) (cache d) (ExtraHeaders d) m.

(** The readers defined in other files of the package: [readConsul],
    [readStdin], and the method [d.readMerge], which reads other sources
    through [d]. *)
Class Readers (World : Type) := {
  readConsul : Source World -> list string -> World -> World * Source World * result bytes;
  readStdin : Source World -> list string -> World -> World * Source World * result bytes;
  readMerge : Data World -> Source World -> list string -> World ->
              World * Data World * Source World * result bytes
}.

(** The state a call of [readSource] acts on: the outside world, the [Data]
    behind [d] and the [Source] behind [source]. *)
Record state (World : Type) := mkState {
  world : World;
  data : Data World;
  src : Source World
}.
Arguments mkState {World} _ _ _.
Arguments world {World} _.
Arguments data {World} _.
Arguments src {World} _.

(** A state and error monad for [readSource]. *)
Definition M (S A : Type) : Type := S -> S * result A.

Definition fail {S A} (e : error) : M S A := fun s => (s, Err e).

#[global] Instance M_ret {S} : MRet (M S) := fun A a s => (s, Ok a).

#[global] Instance M_bind {S} : MBind (M S) := fun A B k m s =>
  match m s with
  | (s', Ok a) => k a s'
  | (s', Err e) => (s', Err e)
  | (s', Panic msg) => (s', Panic msg)
  end.

(** [x, err := m; if err != nil { return nil, f(err) }] *)
Definition or_wrap {S A} (m : M S A) (f : error -> error) : M S A :=
  fun s =>
    match m s with
    | (s', Err e) => (s', Err (f e))
    | r => r
    end.

(** [x, err := m] with the error kept as a value. *)
Definition attempt {S A} (m : M S A) : M S (A + error) :=
  fun s =>
    match m s with
    | (s', Ok a) => (s', Ok (inl a))
    | (s', Err e) => (s', Ok (inr e))
    | (s', Panic msg) => (s', Panic msg)
    end.

Definition pure_result {S A} (r : result A) : M S A := fun s => (s, r).

Section ReadSource.
Context {World : Type} `{!url.Lib} `{!mime.Lib} `{!path.Lib} `{!Helpers World}
        `{!fsimpl.Lib World} `{!Readers World}.

(** A call on the outside world. *)
Definition io {A} (f : World -> World * result A) : M (state World) A :=
  fun s => let '(w, r) := f (world s) in (mkState w (data s) (src s), r).

Definition get_data : M (state World) (Data World) := fun s => (s, Ok (data s)).

Definition put_data (d : Data World) : M (state World) unit :=
  fun s => (mkState (world s) d (src s), Ok tt).

Definition get_src : M (state World) (Source World) := fun s => (s, Ok (src s)).

(** [registerReaders] registers the source-reader functions. *)
Definition registerReaders (d : Data World) : Data World :=
  set_sourceReaders
    (Some (<["aws+smp" := ReadAWSSMP]>
          (<["consul" := ReadConsul]>
          (<["consul+http" := ReadConsul]>
          (<["consul+https" := ReadConsul]>
          (<["merge" := ReadMerge]>
          (<["stdin" := ReadStdin]> ∅))))))) d.

(** [lookupReader] returns the reader function for the given scheme. *)
Definition lookupReader (scheme : string) : M (state World) reader :=
  d ← get_data;
  _ ← match sourceReaders d with
       | None => put_data (registerReaders d)
       | Some _ => mret tt
       end;
  d ← get_data;
  match sourceReaders d with
  | None => pure_result (Panic "unreachable: readers are registered")
  | Some readers =>
      match readers !! scheme with
      | None => fail (Errorf "scheme %s not registered" [FStr scheme])
      | Some r => mret r
      end
  end.

(** The call [r(ctx, source, args...)] of a registered reader. *)
Definition call_reader (r : reader) (args : list string) : M (state World) bytes :=
  fun s =>
    match r with
    | ReadAWSSMP =>
        let '(w, source, res) := readAWSSMP (src s) args (world s) in
        (mkState w (data s) source, res)
    | ReadConsul =>
        let '(w, source, res) := readConsul (src s) args (world s) in
        (mkState w (data s) source, res)
    | ReadStdin =>
        let '(w, source, res) := readStdin (src s) args (world s) in
        (mkState w (data s) source, res)
    | ReadMerge =>
        let '(w, d, source, res) := readMerge (data s) (src s) args (world s) in
        (mkState w d source, res)
    end.

(** [cacheKey := source.Alias; for _, v := range args { cacheKey += v }] *)
Definition cacheKeyOf (source : Source World) (args : list string) : string :=
  foldl (fun cacheKey v => cacheKey +:+ v) (Alias source) args.

(** [fc := &fileContent{data, mimeType}; d.cache[cacheKey] = fc; return fc, nil] *)
Definition store (cacheKey : string) (data_ : bytes) (mimeType_ : string)
  : M (state World) fileContent :=
  let fc := mkFileContent data_ mimeType_ in
  d ← get_data;
  _ ← put_data (set_cache (<[cacheKey := fc]> (cache d)) d);
  mret fc.

(** The body of [readSource] after a cache miss. *)
Definition fetchSource (cacheKey : string) (args : list string)
  : M (state World) fileContent :=
  (* TODO: initialize this elsewhere? *)
  d ← get_data;
  _ ← match FSMux d with
       | None => put_data (set_FSMux (Some fsimpl.NewMux) d)
       | Some _ => mret tt
       end;
  let arg := match args with a :: _ => a | [] => "" end in
  source ← get_src;
  u ← pure_result (resolveURL (URL source) arg);
  (* possible type hint *)
  let mimeType_ := url.Get (url.Query u) "type" in
  let '(u, fname) := splitFSMuxURL u in
  d ← get_data;
  match FSMux d with
  | None => pure_result (Panic "unreachable: the mux is initialized")
  | Some mux =>
      looked ← attempt (io (fsimpl.Lookup mux (url.String_ u)));
      match looked with
      | inl fsys =>
          f ← or_wrap (io (fsimpl.Open fsys fname))
                 (fun err => Wrapf err "open (url: %q, name: %q): %w"
                                   [FVal (url.String_ u); FStr fname]);
          fi ← or_wrap (io (fsimpl.Stat f))
                  (fun err => Wrapf err "stat (url: %q, name: %q): %w"
                                    [FVal (url.String_ u); FStr fname]);
          let mimeType_ :=
            if bool_decide (mimeType_ = "") then fsimpl.ContentType fi else mimeType_ in
          if fsimpl.IsDir fi then
            des ← or_wrap (io (fsimpl.ReadDir fsys fname))
                     (fun err => Wrapf err "readDir (url: %q, name: %s): %w"
                                       [FVal (url.String_ u); FStr fname]);
            let entries := des in
            data_ ← or_wrap (pure_result (fsimpl.json_Marshal entries))
                       (fun err => Wrapf err "json.Marshal: %w" []);
            let mimeType_ := jsonArrayMimetype in
            store cacheKey data_ mimeType_
          else
            data_ ← or_wrap (io (fsimpl.ReadAll f))
                       (fun err => Wrapf err "read (url: %q, name: %s): %w"
                                         [FVal (url.String_ u); FStr fname]);
            store cacheKey data_ mimeType_
      | inr _ =>
          (* TODO: get rid of this, I guess? *)
          r ← or_wrap (lookupReader (url.Scheme u))
                 (fun err => Wrapf err "lookupReader (url: %q): %w"
                                   [FVal (url.String_ u)]);
          data_ ← call_reader r args;
          mimeType_ ←
            (if bool_decide (mimeType_ = "") then
               let subpath := match args with a :: _ => a | [] => "" end in
               source ← get_src;
               pure_result (mimeType source subpath)
             else mret mimeType_);
          store cacheKey data_ mimeType_
      end
  end.

(** [func (d *Data) readSource(ctx, source *Source, args ...string)], with results
    [*fileContent] and [error]:
    returns the (possibly cached) data from the given source, as referenced
    by the given args. *)
Definition readSource (args : list string) : M (state World) fileContent :=
  source ← get_src;
  let cacheKey := cacheKeyOf source args in
  d ← get_data;
  match cache d !! cacheKey with
  | Some cached => mret cached
  | None => fetchSource cacheKey args
  end.

End ReadSource.

(** * The rest of datasource.go: definitions, lookups, decoding

    The functions around [readSource]: [FromConfig], [DefineDatasource],
    [DatasourceExists], [lookupSource], [readDataSource], [Include],
    [Datasource], [parseData], [DatasourceReachable] and [ListDatasources]. *)

Definition set_Alias {World} (alias : string) (s : Source World) : Source World :=
  mkSource alias (URL s) (Header s) (asmpg s) (mediaType s).

Definition set_Sources {World} (m : gmap string (Source World)) (d : Data World) : Data World :=
  mkData m (sourceReaders d) (cache d) (ExtraHeaders d) (FSMux d).

Module config.

(** [config.DataSource] (internal/config): a URL and its headers. *)
Record DataSource := mkDataSource {
  URL : url.URL;
  Header : gmap string (list string)
}.

(** [config.Config], with the fields [FromConfig] reads: the data sources,
    the context sources and the extra headers.  Its [Stdin] goes into the
    context, which is part of the world. *)
Record Config := mkConfig {
  DataSources : gmap string DataSource;
  Context_ : gmap string DataSource;
  ExtraHeaders : gmap string (gmap string (list string))
}.

(** [config.ParseSourceURL]. *)
Class Lib := {
  ParseSourceURL : string -> result url.URL
}.

End config.

(** What [parseData] returns: the text itself for plain text, and a decoded
    value otherwise. *)
Inductive parsed (Value : Type) :=
| PText (s : string)
| PValue (v : Value).
Arguments PText {Value} s.
Arguments PValue {Value} v.

(** The decoders of the package (data.go): [JSON], [JSONArray], [YAML],
    [YAMLArray], [CSV], [TOML] and [dotEnv], with the type of the values
    they return. *)
Class Decoders := {
  Value : Type;
  JSON : string -> result Value;
  JSONArray : string -> result Value;
  YAML : string -> result Value;
  YAMLArray : string -> result Value;
  CSV : string -> result Value;
  TOML : string -> result Value;
  dotEnv : string -> result Value
}.

(** [for key, val := range src { dst[key] = f(key, val) }]. *)
Definition range_assign_key {A B} (f : string -> A -> B) (src : gmap string A)
    (dst : gmap string B) : gmap string B :=
  map_fold (fun key val acc => <[key := f key val]> acc) dst src.

Section Datasources.
Context {World : Type} `{!url.Lib} `{!mime.Lib} `{!path.Lib} `{!Helpers World}
        `{!fsimpl.Lib World} `{!Readers World} `{!config.Lib} `{!Decoders}.

(** [FromConfig]: the sources of [cfg.DataSources], then those of
    [cfg.Context]. *)
Definition FromConfig (cfg : config.Config) : Data World :=
  let mk := fun alias (d : config.DataSource) =>
              mkSource alias (config.URL d) (config.Header d) None "" in
  let sources := range_assign_key mk (config.DataSources cfg) ∅ in
  let sources := range_assign_key mk (config.Context_ cfg) sources in
  mkData sources None ∅ (config.ExtraHeaders cfg) None.

(** [DatasourceExists]. *)
Definition DatasourceExists (d : Data World) (alias : string) : bool :=
  bool_decide (is_Some (Sources d !! alias)).

(** [DefineDatasource]. *)
Definition DefineDatasource (d : Data World) (alias value : string)
  : Data World * result string :=
  if bool_decide (alias = "") then
    (d, Err (Errorf "datasource alias must be provided" []))
  else if DatasourceExists d alias then (d, Ok "")
  else
    match config.ParseSourceURL value with
    | Err err => (d, Err err)
    | Panic msg => (d, Panic msg)
    | Ok srcURL =>
        let s := mkSource alias srcURL (default ∅ (ExtraHeaders d !! alias)) None "" in
        (set_Sources (<[alias := s]> (Sources d)) d, Ok "")
    end.

(** [URL.IsAbs]. *)
Definition IsAbs (u : url.URL) : bool := negb (bool_decide (url.Scheme u = "")).

(** [lookupSource].  [d.Sources] is an allocated map, as [FromConfig] and
    [DefineDatasource] leave it.  The source returned is the object the
    entry of the alias points to: giving it its alias changes the entry. *)
Definition lookupSource (d : Data World) (alias : string)
  : Data World * result (Source World) :=
  let undefined := Err (Errorf "Undefined datasource '%s'" [FStr alias]) in
  let found :=
    match Sources d !! alias with
    | Some source => (d, Ok source)
    | None =>
        match url.Parse alias with
        | Ok srcURL =>
            if negb (IsAbs srcURL) then (d, undefined)
            else
              let source :=
                mkSource alias srcURL (default ∅ (ExtraHeaders d !! alias)) None "" in
              (set_Sources (<[alias := source]> (Sources d)) d, Ok source)
        | Err _ => (d, undefined)
        | Panic msg => (d, Panic msg)
        end
    end in
  match found with
  | (d, Ok source) =>
      if bool_decide (Alias source = "") then
        let source := set_Alias alias source in
        (set_Sources (<[alias := source]> (Sources d)) d, Ok source)
      else (d, Ok source)
  | other => other
  end.

(** The state after a read of the source behind the entry of [alias]: the
    source is the object the entry points to, so what the read did to it is
    in the map (no function of the package replaces an entry). *)
Definition after_read (alias : string) (s : state World) : Data World :=
  set_Sources (<[alias := src s]> (Sources (data s))) (data s).

(** [readDataSource]. *)
Definition readDataSource (d : Data World) (alias : string) (args : list string)
    (w : World) : World * Data World * result fileContent :=
  match lookupSource d alias with
  | (d, Ok source) =>
      let '(s, r) := readSource args (mkState w d source) in
      match r with
      | Ok fc => (world s, after_read alias s, Ok fc)
      | Err err =>
          (world s, after_read alias s,
           Err (Wrapf err "Couldn't read datasource '%s'" [FStr alias]))
      | Panic msg => (world s, after_read alias s, Panic msg)
      end
  | (d, Err err) => (w, d, Err err)
  | (d, Panic msg) => (w, d, Panic msg)
  end.

(** [Include]: [fc, err := d.readDataSource(...); return string(fc.b), err].
    On an error [fc] is nil and [fc.b] is a nil dereference. *)
Definition Include (d : Data World) (alias : string) (args : list string) (w : World)
  : World * Data World * result string :=
  let '(w, d, r) := readDataSource d alias args w in
  match r with
  | Ok fc => (w, d, Ok (b fc))
  | Err _ => (w, d, Panic "nil pointer dereference")
  | Panic msg => (w, d, Panic msg)
  end.

(** [out, err = first(s); if err != nil { out, err = second(s) }] *)
Definition or_else {A} (first second : result A) : result A :=
  match first with
  | Err _ => second
  | r => r
  end.

Definition as_value {A} (r : result A) : result (parsed A) :=
  match r with
  | Ok v => Ok (PValue v)
  | Err e => Err e
  | Panic msg => Panic msg
  end.

(** [parseData]: the decoder of the media type, after [mimeAlias]. *)
Definition parseData (mimeType_ s : string) : result (parsed Value) :=
  let m := mimeAlias mimeType_ in
  if bool_decide (m = jsonMimetype) then
    (* maybe it's a JSON array *)
    as_value (or_else (JSON s) (JSONArray s))
  else if bool_decide (m = jsonArrayMimetype) then as_value (JSONArray s)
  else if bool_decide (m = yamlMimetype) then
    (* maybe it's a YAML array *)
    as_value (or_else (YAML s) (YAMLArray s))
  else if bool_decide (m = csvMimetype) then as_value (CSV s)
  else if bool_decide (m = tomlMimetype) then as_value (TOML s)
  else if bool_decide (m = envMimetype) then as_value (dotEnv s)
  else if bool_decide (m = textMimetype) then Ok (PText s)
  else Err (Errorf "Datasources of type %s not yet supported" [FStr mimeType_]).

(** [Datasource]. *)
Definition Datasource (d : Data World) (alias : string) (args : list string) (w : World)
  : World * Data World * result (parsed Value) :=
  let '(w, d, r) := readDataSource d alias args w in
  match r with
  | Ok fc => (w, d, parseData (contentType fc) (b fc))
  | Err err => (w, d, Err err)
  | Panic msg => (w, d, Panic msg)
  end.

(** [DatasourceReachable]: whether the named datasource can be read with the
    given arguments; the data read is discarded. *)
Definition DatasourceReachable (d : Data World) (alias : string) (args : list string)
    (w : World) : World * Data World * result bool :=
  match Sources d !! alias with
  | None => (w, d, Ok false)
  | Some source =>
      let '(s, r) := readSource args (mkState w d source) in
      match r with
      | Ok _ => (world s, after_read alias s, Ok true)
      | Err _ => (world s, after_read alias s, Ok false)
      | Panic msg => (world s, after_read alias s, Panic msg)
      end
  end.

(** [ListDatasources]: the aliases, sorted by [sort.Strings] (byte order). *)
Definition ListDatasources (d : Data World) : list string :=
  let datasources := map fst (map_to_list (Sources d)) in
  merge_sort String.le datasources.

End Datasources.

(** * A reference implementation of the library interfaces

    Executable versions of the library functions, for evaluating the package
    on concrete inputs.  [Parse], [ResolveReference] and [ParseMediaType]
    cover a fragment of their inputs, named with each; [ParseQuery], [Encode]
    and [path.Join] are complete. *)

Module Ref.

(** *** Bytes and substrings *)

Definition code (c : ascii) : nat := nat_of_ascii c.

Fixpoint byte_in (c : ascii) (set : string) : bool :=
  match set with
  | EmptyString => false
  | String x rest => if decide (c = x) then true else byte_in c rest
  end.

Fixpoint all_bytes (p : ascii -> bool) (s : string) : bool :=
  match s with
  | EmptyString => true
  | String c rest => p c && all_bytes p rest
  end.

Definition is_alnum (c : ascii) : bool :=
  let n := code c in
  ((48 <=? n) && (n <=? 57) || (65 <=? n) && (n <=? 90) || (97 <=? n) && (n <=? 122))%nat.

Definition is_ctl (c : ascii) : bool :=
  let n := code c in ((n <? 32) || (n =? 127))%nat.

Definition lower (c : ascii) : ascii :=
  let n := code c in
  if ((65 <=? n) && (n <=? 90))%nat then ascii_of_nat (n + 32) else c.

(** [strings.ToLower] on ASCII. *)
Fixpoint ToLower (s : string) : string :=
  match s with
  | EmptyString => EmptyString
  | String c rest => String (lower c) (ToLower rest)
  end.

(** [strings.Cut(s, sep)] for a one-byte separator: before, after, found. *)
Fixpoint Cut (s : string) (sep : ascii) : string * string * bool :=
  match s with
  | EmptyString => (EmptyString, EmptyString, false)
  | String c rest =>
      if decide (c = sep) then (EmptyString, rest, true)
      else let '(before, after, found) := Cut rest sep in (String c before, after, found)
  end.

(** [strings.Split(s, sep)] for a one-byte separator. *)
Fixpoint Split (s : string) (sep : ascii) : list string :=
  match s with
  | EmptyString => [EmptyString]
  | String c rest =>
      if decide (c = sep) then EmptyString :: Split rest sep
      else match Split rest sep with
           | first :: others => String c first :: others
           | [] => [String c EmptyString]
           end
  end.

(** *** [net/url]: queries *)

Definition ishex (c : ascii) : bool :=
  let n := code c in
  ((48 <=? n) && (n <=? 57) || (65 <=? n) && (n <=? 70) || (97 <=? n) && (n <=? 102))%nat.

Definition unhex (c : ascii) : nat :=
  let n := code c in
  if ((48 <=? n) && (n <=? 57))%nat then n - 48
  else if ((97 <=? n) && (n <=? 102))%nat then n - 97 + 10
  else if ((65 <=? n) && (n <=? 70))%nat then n - 65 + 10
  else 0.

(** [QueryUnescape]: [%XX] is a byte and [+] a space; [None] on a [%] that
    two hex digits do not follow. *)
Fixpoint QueryUnescape (s : string) : option string :=
  match s with
  | EmptyString => Some EmptyString
  | String "%" (String h1 (String h2 rest)) =>
      if ishex h1 && ishex h2
      then String (ascii_of_nat (16 * unhex h1 + unhex h2)) <$> QueryUnescape rest
      else None
  | String "%" _ => None
  | String "+" rest => String " " <$> QueryUnescape rest
  | String c rest => String c <$> QueryUnescape rest
  end.

(** One step of the loop of [parseQuery], on the text between two [&]. *)
Definition parseQuery_step (acc : url.Values * option error) (key : string)
  : url.Values * option error :=
  let '(m, err) := acc in
  if byte_in ";" key then
    (m, Some (LibError "invalid semicolon separator in query"))
  else if bool_decide (key = "") then (m, err)
  else
    let '(key, value, _) := Cut key "=" in
    match QueryUnescape key with
    | None => (m, match err with None => Some (LibError "invalid URL escape") | _ => err end)
    | Some key =>
        match QueryUnescape value with
        | None => (m, match err with None => Some (LibError "invalid URL escape") | _ => err end)
        | Some value => (<[key := default [] (m !! key) ++ [value]]> m, err)
        end
    end.

(** [url.ParseQuery] (Go 1.17 and later: a semicolon is not a separator). *)
Definition ParseQuery (query : string) : url.Values * option error :=
  foldl parseQuery_step (∅, None) (Split query "&").

Definition upperhex (n : nat) : ascii :=
  default "0"%char (String.get n "0123456789ABCDEF").

(** [shouldEscape(c, encodeQueryComponent)]. *)
Definition shouldEscapeQuery (c : ascii) : bool :=
  negb (is_alnum c || byte_in c "-_.~").

(** [url.QueryEscape]. *)
Fixpoint QueryEscape (s : string) : string :=
  match s with
  | EmptyString => EmptyString
  | String c rest =>
      if decide (c = " "%char) then String "+" (QueryEscape rest)
      else if shouldEscapeQuery c
      then String "%" (String (upperhex (code c / 16))
                      (String (upperhex (code c mod 16)) (QueryEscape rest)))
      else String c (QueryEscape rest)
  end.

(** The body of [Values.Encode] for one key. *)
Fixpoint encode_key (keyEscaped : string) (vs : list string) (buf : string) : string :=
  match vs with
  | [] => buf
  | v :: rest =>
      let buf := if bool_decide (buf = "") then buf else buf +:+ "&" in
      encode_key keyEscaped rest (buf +:+ keyEscaped +:+ "=" +:+ QueryEscape v)
  end.

(** [Values.Encode]: the keys sorted, every value of a key in turn. *)
Definition Encode (v : url.Values) : string :=
  let keys := merge_sort String.le (map fst (map_to_list v)) in
  foldl (fun buf k => encode_key (QueryEscape k) (default [] (v !! k)) buf) "" keys.

(** *** [net/url]: references *)

(** Bytes of a path that [url.Parse] and [URL.String] leave as they are. *)
Definition pathByte (c : ascii) : bool := is_alnum c || byte_in c "-_.~/".

(** [url.Parse] on relative references made of a path of unreserved bytes
    and separators, not starting with two separators, and an optional
    query; a control character is the error it is in Go; every other
    reference is outside the fragment and reported as such. *)
Definition Parse (rawURL : string) : result url.URL :=
  if negb (all_bytes (fun c => negb (is_ctl c)) rawURL) then
    Err (LibError "net/url: invalid control character in URL")
  else
    let '(rest, query, found) := Cut rawURL "?" in
    if all_bytes pathByte rest && negb (HasPrefix rest "//") && negb (byte_in "#" query)
    then Ok (url.mkURL "" "" None "" rest "" (found && bool_decide (query = ""))
                       query "" "")
    else Err (LibError "net/url: reference outside the modelled fragment").

(** [strings.LastIndex(s, "/")] as the text before the last separator, if
    there is one. *)
Fixpoint beforeLastSep (s : string) : option string :=
  match s with
  | EmptyString => None
  | String c rest =>
      match beforeLastSep rest with
      | Some before => Some (String c before)
      | None => if decide (c = "/"%char) then Some EmptyString else None
      end
  end.

(** One element of the loop of [resolvePath]: the text written so far,
    after its leading separator, and whether the next element is the first. *)
Definition resolvePath_step (acc : string * bool) (elem : string) : string * bool :=
  let '(str, first) := acc in
  if bool_decide (elem = ".") then (str, false)
  else if bool_decide (elem = "..") then
    match beforeLastSep str with
    | None => (EmptyString, true)
    | Some before => (before, first)
    end
  else ((if first then str else str +:+ "/") +:+ elem, false).

(** [resolvePath(base, ref)]: RFC 3986, sections 5.2.2 and 5.2.4. *)
Definition resolvePath (base ref : string) : string :=
  let full :=
    match ref with
    | EmptyString => base
    | String "/" _ => ref
    | _ => match beforeLastSep base with
           | Some before => before +:+ "/" +:+ ref
           | None => ref
           end
    end in
  if bool_decide (full = "") then ""
  else
    let elems := Split full "/" in
    let '(str, _) := foldl resolvePath_step (EmptyString, true) elems in
    let last := List.last elems EmptyString in
    let str := if bool_decide (last = ".") || bool_decide (last = "..")
               then str +:+ "/" else str in
    match str with
    | String "/" _ => str
    | _ => "/" +:+ str
    end.

(** [URL.ResolveReference], for paths that need no escaping: [EscapedPath]
    is then the path and [setPath] sets it. *)
Definition ResolveReference (u ref : url.URL) : url.URL :=
  let url := ref in
  let url := if bool_decide (url.Scheme ref = "")
             then url.set_Scheme (url.Scheme u) url else url in
  if negb (bool_decide (url.Scheme ref = "")) || negb (bool_decide (url.Host ref = ""))
     || bool_decide (url.User ref <> None)
  then url.set_RawPath "" (url.set_Path (resolvePath (url.Path ref) "") url)
  else if negb (bool_decide (url.Opaque ref = "")) then
    url.set_Path "" (url.set_Host "" (url.set_User None url))
  else
    let url :=
      if bool_decide (url.Path ref = "") && negb (url.ForceQuery ref)
         && bool_decide (url.RawQuery ref = "")
      then
        let url := url.set_RawQuery (url.RawQuery u) url in
        if bool_decide (url.Fragment ref = "")
        then url.set_Fragment (url.Fragment u) (url.RawFragment u) url else url
      else url in
    if bool_decide (url.Path ref = "") && negb (bool_decide (url.Opaque u = "")) then
      url.set_Path "" (url.set_Host "" (url.set_User None
        (url.set_Opaque (url.Opaque u) url)))
    else
      url.set_RawPath ""
        (url.set_Path (resolvePath (url.Path u) (url.Path ref))
           (url.set_User (url.User u) (url.set_Host (url.Host u) url))).

(** [URL.String], for references without user information and whose host,
    path and fragment need no escaping. *)
Definition String_ (u : url.URL) : string :=
  let buf := if bool_decide (url.Scheme u = "") then "" else url.Scheme u +:+ ":" in
  let buf :=
    if negb (bool_decide (url.Opaque u = "")) then buf +:+ url.Opaque u
    else
      let buf :=
        if negb (bool_decide (url.Scheme u = "")) || negb (bool_decide (url.Host u = ""))
        then
          let buf :=
            if negb (bool_decide (url.Host u = "")) || negb (bool_decide (url.Path u = ""))
            then buf +:+ "//" else buf in
          buf +:+ url.Host u
        else buf in
      let buf :=
        if negb (bool_decide (url.Path u = "")) && negb (HasPrefix (url.Path u) "/")
           && negb (bool_decide (url.Host u = ""))
        then buf +:+ "/" else buf in
      (* RFC 3986 section 4.2: no colon in the first segment of a relative path *)
      let buf :=
        if bool_decide (buf = "") && byte_in ":" (Cut (url.Path u) "/").1.1
        then "./" else buf in
      buf +:+ url.Path u in
  let buf :=
    if url.ForceQuery u || negb (bool_decide (url.RawQuery u = ""))
    then buf +:+ "?" +:+ url.RawQuery u else buf in
  if bool_decide (url.Fragment u = "") then buf else buf +:+ "#" +:+ url.Fragment u.

(** *** [mime] *)

(** The extension table after the registrations of [init]; a [text/] type is
    registered with its charset.  The built-in and the system's tables are
    left out. *)
Definition TypeByExtension (ext : string) : string :=
  let table : gmap string string :=
    <[".json" := jsonMimetype]>
    (<[".yml" := yamlMimetype]>
    (<[".yaml" := yamlMimetype]>
    (<[".csv" := "text/csv; charset=utf-8"]>
    (<[".toml" := tomlMimetype]>
    (<[".env" := envMimetype]> ∅))))) in
  match table !! ext with
  | Some t => t
  | None => default "" (table !! ToLower ext)
  end.

Definition is_space (c : ascii) : bool :=
  let n := code c in ((n =? 32) || (9 <=? n) && (n <=? 13))%nat.

Fixpoint TrimLeft (s : string) : string :=
  match s with
  | String c rest => if is_space c then TrimLeft rest else s
  | EmptyString => EmptyString
  end.

Fixpoint TrimRight (s : string) : string :=
  match s with
  | String c rest =>
      match TrimRight rest with
      | EmptyString => if is_space c then EmptyString else String c EmptyString
      | rest' => String c rest'
      end
  | EmptyString => EmptyString
  end.

(** [strings.TrimSpace] on ASCII. *)
Definition TrimSpace (s : string) : string := TrimRight (TrimLeft s).

(** [isTokenChar]: printable, not a space, not one of the tspecials. *)
Definition isTokenChar (c : ascii) : bool :=
  let n := code c in
  ((32 <? n) && (n <? 127))%nat
  && negb (byte_in c "()<>@,;:/[]?=")
  && negb ((n =? 34) || (n =? 92))%nat.

(** [consumeToken]: the longest prefix of token characters, and the rest. *)
Fixpoint consumeToken (v : string) : string * string :=
  match v with
  | String c rest =>
      if isTokenChar c
      then let '(token, rest') := consumeToken rest in (String c token, rest')
      else (EmptyString, v)
  | EmptyString => (EmptyString, EmptyString)
  end.

(** [checkMediaTypeDisposition]: the error, if any. *)
Definition checkMediaTypeDisposition (s : string) : option string :=
  let '(typ, rest) := consumeToken s in
  if bool_decide (typ = "") then Some "mime: no media type"
  else if bool_decide (rest = "") then None
  else
    match rest with
    | String "/" rest =>
        let '(subtype, rest) := consumeToken rest in
        if bool_decide (subtype = "") then Some "mime: expected token after slash"
        else if bool_decide (rest = "") then None
        else Some "mime: unexpected content after media subtype"
    | _ => Some "mime: expected slash after first token"
    end.

(** [mime.ParseMediaType] on a media type without parameters or with one
    parameter of the form [key=token]; other parameter lists are outside
    the fragment and reported as such. *)
Definition ParseMediaType (v : string) : result (string * gmap string string) :=
  let '(base, rest, found) := Cut v ";" in
  let mediatype := TrimSpace (ToLower base) in
  match checkMediaTypeDisposition mediatype with
  | Some err => Err (LibError err)
  | None =>
      if negb found then Ok (mediatype, ∅)
      else
        let '(key, rest) := consumeToken (TrimLeft rest) in
        match rest with
        | String "=" value =>
            if negb (bool_decide (key = "")) && negb (bool_decide (value = ""))
               && all_bytes isTokenChar value
            then Ok (mediatype, {[ToLower key := value]})
            else Err (LibError "mime: parameters outside the modelled fragment")
        | _ => Err (LibError "mime: parameters outside the modelled fragment")
        end
  end.

(** *** [path] *)

(** One element of a path for [path.Clean]: the elements kept so far, last
    first. *)
Definition clean_step (rooted : bool) (kept : list string) (elem : string) : list string :=
  if bool_decide (elem = "") || bool_decide (elem = ".") then kept
  else if bool_decide (elem = "..") then
    match kept with
    | top :: below => if bool_decide (top = "..") then elem :: kept else below
    | [] => if rooted then [] else [elem]
    end
  else elem :: kept.

(** [path.Clean]: the shortest equivalent path. *)
Definition Clean (p : string) : string :=
  let rooted := HasPrefix p "/" in
  let kept := rev (foldl (clean_step rooted) [] (Split p "/")) in
  let body := GoStrings.Join kept "/" in
  if rooted then "/" +:+ body
  else if bool_decide (body = "") then "." else body.

(** [path.Join]: the non-empty elements joined by separators and cleaned;
    empty when every element is empty. *)
Definition Join (elems : list string) : string :=
  let nonempty := filter (fun e => e <> "") elems in
  match nonempty with
  | [] => ""
  | _ => Clean (GoStrings.Join nonempty "/")
  end.

(** *** The interfaces *)

Lemma Parse_error (s : string) (e : error) :
  Parse s = Err e -> exists msg, e = LibError msg.
Proof.
  unfold Parse. destruct (negb _); [intros [= <-]; eauto|].
  destruct (Cut s "?") as [[rest query] found].
  destruct (_ && _); [done|]. intros [= <-]; eauto.
Qed.

Lemma ResolveReference_RawQuery (u ref : url.URL) :
  url.RawQuery u = "" ->
  url.RawQuery (ResolveReference u ref) = url.RawQuery ref.
Proof.
  intros Hu. unfold ResolveReference.
  destruct u as [sch opq usr hst pth rpth fq rq frg rfrg].
  destruct ref as [sch' opq' usr' hst' pth' rpth' fq' rq' frg' rfrg'].
  simpl in *. subst rq.
  repeat (case_bool_decide; simpl); try reflexivity;
    destruct fq'; simpl; try reflexivity; congruence.
Qed.

Definition url_lib : url.Lib :=
  {| url.Parse := Parse;
     url.ParseQuery := ParseQuery;
     url.Encode := Encode;
     url.ResolveReference := ResolveReference;
     url.String_ := String_;
     url.Parse_error := Parse_error;
     url.ResolveReference_RawQuery := ResolveReference_RawQuery |}.

Definition mime_lib : mime.Lib :=
  {| mime.TypeByExtension := TypeByExtension;
     mime.ParseMediaType := ParseMediaType |}.

Definition path_lib : path.Lib := {| path.Join := Join |}.

End Ref.


(** * A stub backend

    A parameter store that answers from a table and logs its calls, in the
    manner of the counting stubs of the test suite; no filesystem provider
    and no other reader is available. *)

Module Stub.

(** The outside world: the table of the store, whether the store can be
    reached, and the API calls made so far, latest first. *)
Record World := mkWorld {
  table : list ssm.Parameter_;
  reachable : bool;
  calls : list string
}.

Definition logged (call : string) (w : World) : World :=
  mkWorld (table w) (reachable w) (call :: calls w).

Definition GetParameter (input : ssm.GetParameterInput) (w : World)
  : World * result ssm.GetParameterOutput :=
  let w := logged ("GetParameter " +:+ ssm.gpName input) w in
  if reachable w then
    match filter (fun p => ssm.Name p = ssm.gpName input) (table w) with
    | p :: _ => (w, Ok (ssm.mkGetParameterOutput p))
    | [] => (w, Err (LibError "ParameterNotFound"))
    end
  else (w, Err (LibError "RequestError: send request failed")).

Definition GetParametersByPath (input : ssm.GetParametersByPathInput) (w : World)
  : World * result ssm.GetParametersByPathOutput :=
  let w := logged ("GetParametersByPath " +:+ ssm.gpPath input) w in
  if reachable w then
    (w, Ok (ssm.mkGetParametersByPathOutput
              (filter (fun p => HasPrefix (ssm.Name p) (ssm.gpPath input) = true) (table w))
              None))
  else (w, Err (LibError "RequestError: send request failed")).

Definition getter : awssmpGetter World := mkGetter GetParameter GetParametersByPath.

(** A JSON string, for text that needs no escaping. *)
Definition quoted (s : string) : string :=
  String (ascii_of_nat 34) (s +:+ String (ascii_of_nat 34) EmptyString).

(** [ToJSON] on the two kinds of value the reader encodes. *)
Definition toJSON (v : jsonInput) : result string :=
  match v with
  | JStrings l => Ok ("[" +:+ Join (map quoted l) "," +:+ "]")
  | JParameter p =>
      Ok ("{" +:+ quoted "Name" +:+ ":" +:+ quoted (ssm.Name p) +:+ ","
              +:+ quoted "Type" +:+ ":" +:+ quoted (ssm.Type_ p) +:+ ","
              +:+ quoted "Value" +:+ ":" +:+ quoted (ssm.Value p) +:+ "}")
  end.

Definition helpers : Helpers World :=
  {| ssm_New := fun w => (w, getter);
     ToJSON := toJSON |}.

(** No filesystem provider answers, so every read goes to the readers. *)
Definition fs_lib : fsimpl.Lib World :=
  {| fsimpl.NewMux :=
       fsimpl.mkFSMux (fun _ w => (w, Err (LibError "no filesystem registered")));
     fsimpl.json_Marshal := fun l => toJSON (JStrings l) |}.

Definition unavailable (source : Source World) (args : list string) (w : World)
  : World * Source World * result bytes :=
  (w, source, Err (LibError "reader not available")).

Definition readers : Readers World :=
  {| readConsul := unavailable;
     readStdin := unavailable;
     readMerge := fun d source args w =>
                    (w, d, source, Err (LibError "reader not available")) |}.

(** A store with three parameters under [/foo]. *)
Definition world0 : World :=
  mkWorld [ssm.mkParameter "/foo/bar" "String" "1" 1;
           ssm.mkParameter "/foo/baz" "String" "2" 1;
           ssm.mkParameter "/foo" "String" "top" 1]
          true [].

(** The same store, out of reach. *)
Definition offline : World := mkWorld (table world0) false [].

(** A source for the store as [FromConfig] makes it. *)
Definition source0 : Source World :=
  mkSource "params" (url.mkURL "aws+smp" "" None "" "/foo" "" false "" "" "") ∅ None "".

(** A [Data] with that source and nothing read yet. *)
Definition data0 : Data World :=
  mkData {["params" := source0]} None ∅ ∅ None.

End Stub.

(** * A filesystem provider in memory

    For the reads that go through [fsimpl]: a tree with two files in one
    directory, which logs its calls as the parameter store does. *)

Module MemFS.

(** A regular file with its bytes and the content type of its extension. *)
Definition file (content : bytes) (contentType_ : string) : fsimpl.File Stub.World :=
  fsimpl.mkFile
    (fun w => (Stub.logged "Stat" w, Ok (fsimpl.mkFileInfo false contentType_)))
    (fun w => (Stub.logged "ReadAll" w, Ok content)).

(** A directory: it cannot be read as a file. *)
Definition dir : fsimpl.File Stub.World :=
  fsimpl.mkFile
    (fun w => (Stub.logged "Stat" w, Ok (fsimpl.mkFileInfo true "")))
    (fun w => (Stub.logged "ReadAll" w, Err (LibError "is a directory"))).

(** The tree [tmp/foo.json], [tmp/bar.txt]. *)
Definition fsys : fsimpl.FS Stub.World :=
  fsimpl.mkFS
    (fun name w =>
       let w := Stub.logged ("Open " +:+ name) w in
       if bool_decide (name = "tmp/foo.json") then
         (w, Ok (file "{}" "application/json"))
       else if bool_decide (name = "tmp/bar.txt") then
         (w, Ok (file "hello" "text/plain"))
       else if bool_decide (name = "tmp") then (w, Ok dir)
       else (w, Err (LibError "file does not exist")))
    (fun name w =>
       let w := Stub.logged ("ReadDir " +:+ name) w in
       if bool_decide (name = "tmp") then (w, Ok ["bar.txt"; "foo.json"])
       else (w, Err (LibError "not a directory"))).

(** A mux with the one provider, for [file] URLs. *)
Definition mux : fsimpl.FSMux Stub.World :=
  fsimpl.mkFSMux
    (fun u w =>
       if HasPrefix u "file:" then (w, Ok fsys)
       else (w, Err (LibError "no filesystem registered"))).

Definition fs_lib : fsimpl.Lib Stub.World :=
  {| fsimpl.NewMux := mux;
     fsimpl.json_Marshal := fun l => Stub.toJSON (JStrings l) |}.

Definition fileURL (path_ query : string) : url.URL :=
  url.mkURL "file" "" None "" path_ "" false query "" "".

(** A source for a path of the tree, and a [Data] with it. *)
Definition sourceOf (path_ query : string) : Source Stub.World :=
  mkSource "files" (fileURL path_ query) ∅ None "".

Definition dataOf (path_ query : string) : Data Stub.World :=
  mkData {["files" := sourceOf path_ query]} None ∅ ∅ None.

Definition stateOf (path_ query : string) : state Stub.World :=
  mkState Stub.world0 (dataOf path_ query) (sourceOf path_ query).

End MemFS.

(** * Decoders by the first byte *)

Module Sniff.

(** Decoders that accept an object by its brace, an array by its bracket,
    and anything else as it is. *)
Definition decoders : Decoders :=
  {| Value := string;
     JSON := fun s => if HasPrefix s "{" then Ok s else Err (LibError "not an object");
     JSONArray := fun s => if HasPrefix s "[" then Ok s else Err (LibError "not an array");
     YAML := fun s => if HasPrefix s "[" then Err (LibError "not a mapping") else Ok s;
     YAMLArray := fun s => if HasPrefix s "[" then Ok s else Err (LibError "not a sequence");
     CSV := Ok;
     TOML := Ok;
     dotEnv := Ok |}.

End Sniff.

(** * Absolute URLs

    [url.Parse] with absolute URLs as well: a scheme of lower-case letters,
    digits, [+], [-] and [.] that starts with a letter, then [//], a host
    without user or port, a path and an optional query.  Every other
    reference is parsed as [Ref.Parse] does. *)
Module Abs.

Definition lower : string := "abcdefghijklmnopqrstuvwxyz".

Definition isScheme (scheme : string) : bool :=
  match scheme with
  | String c _ =>
      Ref.byte_in c lower &&
      Ref.all_bytes (fun c => Ref.byte_in c (lower +:+ "0123456789+-.")) scheme
  | EmptyString => false
  end.

Definition hostByte (c : ascii) : bool := Ref.is_alnum c || Ref.byte_in c "-.".

Definition Parse (rawURL : string) : result url.URL :=
  let '(scheme, rest, found) := Ref.Cut rawURL ":" in
  if found && isScheme scheme && HasPrefix rest "//" then
    let '(hier, query, hasQuery) := Ref.Cut (drop_bytes 2 rest) "?" in
    let '(host, path_, hasPath) := Ref.Cut hier "/" in
    if Ref.all_bytes (fun c => negb (Ref.is_ctl c)) rawURL
       && Ref.all_bytes hostByte host && Ref.all_bytes Ref.pathByte path_
       && negb (Ref.byte_in "#" query)
    then Ok (url.mkURL scheme "" None host (if hasPath then "/" +:+ path_ else "") ""
                       (hasQuery && bool_decide (query = "")) query "" "")
    else Err (LibError "net/url: reference outside the modelled fragment")
  else Ref.Parse rawURL.

Lemma Parse_abs_error (s : string) (e : error) :
  Parse s = Err e -> exists msg, e = LibError msg.
Proof.
  unfold Parse. destruct (Ref.Cut s ":") as [[scheme rest] found].
  destruct (found && isScheme scheme && HasPrefix rest "//").
  - destruct (Ref.Cut (drop_bytes 2 rest) "?") as [[hier query] hasQuery].
    destruct (Ref.Cut hier "/") as [[host path_] hasPath].
    destruct (_ && _); [done|]. intros [= <-]. by eexists.
  - apply Ref.Parse_error.
Qed.

Definition url_lib : url.Lib :=
  {| url.Parse := Parse;
     url.ParseQuery := Ref.ParseQuery;
     url.Encode := Ref.Encode;
     url.ResolveReference := Ref.ResolveReference;
     url.String_ := Ref.String_;
     url.Parse_error := Parse_abs_error;
     url.ResolveReference_RawQuery := Ref.ResolveReference_RawQuery |}.

End Abs.

(** * Vocabulary of the specification

    The notions the design document states its requirements with, defined
    from its words; the properties below compare the code with them. *)

(** A path without its single leading separator, if it has one. *)
Definition stripSeparator (p : string) : string :=
  match p with
  | String "/" rest => rest
  | _ => p
  end.

(** The relative path [splitFSMuxURL] computes: the path without one leading
    separator, else the opaque part, else a dot. *)
Definition relativePath (u : url.URL) : string :=
  let stripped := stripSeparator (url.Path u) in
  if bool_decide (stripped = "") then
    if bool_decide (url.Opaque u = "") then "." else url.Opaque u
  else stripped.

(** The error of a reader that is given too many arguments: its message
    names the limit and the number of arguments found. *)
Definition tooManyArguments (scheme : string) (found : nat) : error :=
  Errorf "maximum two arguments to %s datasource: alias, extraPath (found %d)"
         [FStr scheme; FInt found].

(** The text of an error: the message of a library error, and the format of
    an error made by the package with its [%s] and [%d] filled in (the
    verbs [%q], [%v] and [%w] stay in place). *)
Definition errorMessage (e : error) : string :=
  match e with
  | LibError msg => msg
  | Errorf format args => Sprintf format args
  | Wrapf _ format args => Sprintf format args
  end.

Section MediaTypeSignals.
Context `{!url.Lib} `{!mime.Lib}.

(** The caller-supplied argument as it is parsed: a non-empty argument
    starting with two separators loses one, and one without a leading
    separator gets one. *)
Definition argSpec (arg : string) : string :=
  if decide (0 < String.length arg)%nat then
    let arg := if HasPrefix arg "//" then drop_bytes 1 arg else arg in
    if negb (HasPrefix arg "/") then "/" +:+ arg else arg
  else arg.

(** The five content-type signals, highest priority first. *)
Record signals := mkSignals {
  argType : string;      (* [type] query parameter of the argument *)
  baseType : string;     (* [type] query parameter of the base reference *)
  declaredType : string; (* declared media type of the source *)
  argExtType : string;   (* extension table at the argument's path *)
  baseExtType : string   (* extension table at the base reference's path *)
}.

Definition signalsOf (base : url.URL) (declared : string) (argURL : url.URL) : signals :=
  mkSignals (url.Get (url.Query argURL) "type")
            (url.Get (url.Query base) "type")
            declared
            (mime.TypeByExtension (Ext (url.Path argURL)))
            (mime.TypeByExtension (Ext (url.Path base))).

(** Literal spaces become [+], for callers who pass an unescaped [+]. *)
Definition plusForSpace (s : string) : string := ReplaceAll s " " "+".

Fixpoint firstNonEmpty (l : list string) : string :=
  match l with
  | [] => ""
  | c :: rest => if bool_decide (c = "") then firstNonEmpty rest else c
  end.

(** The candidate: the first non-empty signal, the first three with [+] for
    spaces; empty when every signal is empty. *)
Definition candidate (sg : signals) : string :=
  firstNonEmpty [plusForSpace (argType sg); plusForSpace (baseType sg);
                 plusForSpace (declaredType sg); argExtType sg; baseExtType sg].

(** A candidate parsed as a structured media type, parameters discarded; a
    malformed one is an error. *)
Definition parseCandidate (c : string) : result string :=
  match mime.ParseMediaType c with
  | Ok (t, _) => Ok t
  | Err err => Err (Wrapf err "MIME type was %q" [FStr c])
  | Panic msg => Panic msg
  end.

(** The resolved type of the signals: the parsed candidate, or the default
    when there is none. *)
Definition resolveType (sg : signals) : result string :=
  if bool_decide (candidate sg = "") then Ok textMimetype
  else parseCandidate (candidate sg).

(** The first non-empty signal wins, whatever the signals below it are: the
    result is that signal parsed, and the default when all are empty. *)
Definition precedence (sg : signals) (r : result string) : Prop :=
  (argType sg <> "" -> r = parseCandidate (plusForSpace (argType sg))) /\
  (argType sg = "" -> baseType sg <> "" ->
     r = parseCandidate (plusForSpace (baseType sg))) /\
  (argType sg = "" -> baseType sg = "" -> declaredType sg <> "" ->
     r = parseCandidate (plusForSpace (declaredType sg))) /\
  (argType sg = "" -> baseType sg = "" -> declaredType sg = "" ->
     argExtType sg <> "" -> r = parseCandidate (argExtType sg)) /\
  (argType sg = "" -> baseType sg = "" -> declaredType sg = "" ->
     argExtType sg = "" -> baseExtType sg <> "" ->
     r = parseCandidate (baseExtType sg)) /\
  (argType sg = "" -> baseType sg = "" -> declaredType sg = "" ->
     argExtType sg = "" -> baseExtType sg = "" -> r = Ok textMimetype).

(** Two errors with the same cause that differ at most in the wording of
    the argument-parse message. *)
Definition sameError (e1 e2 : error) : Prop :=
  e1 = e2 \/
  exists cause arg,
    e1 = Wrapf cause "mimeType: couldn't parse arg %q: %w" [FStr arg] /\
    e2 = Wrapf cause "mimeType: couldn't parse name %q: %w" [FStr arg].

(** Two results agree: the same value, or an error both, or a panic both. *)
Definition sameOutcome {A} (r1 r2 : result A) : Prop :=
  match r1, r2 with
  | Ok a1, Ok a2 => a1 = a2
  | Err _, Err _ => True
  | Panic _, Panic _ => True
  | _, _ => False
  end.

End MediaTypeSignals.

(** The argument strings joined in call order. *)
Definition concatArgs (args : list string) : string :=
  foldr String.append "" args.

Section ReaderVocabulary.
Context {World : Type} `{!Helpers World}.

(** The client a call of [readAWSSMP] uses, created on first use. *)
Definition clientOf (source : Source World) (w : World) : World * awssmpGetter World :=
  match asmpg source with
  | Some g => (w, g)
  | None => ssm_New w
  end.

(** The error of both fetches when the backend fails. *)
Definition fetchError (cause : error) (paramPath : string) : error :=
  Wrapf cause "Error reading aws+smp from AWS using GetParameter with input %v"
        [FVal paramPath].

End ReaderVocabulary.

(** * Properties *)

(** ** String helpers *)

Lemma TrimPrefix_sep (p : string) : TrimPrefix p "/" = stripSeparator p.
Proof.
  unfold TrimPrefix, stripSeparator. destruct p as [|c rest]; [reflexivity|].
  simpl. destruct (decide ("/"%char = c)) as [<-|Hne]; [reflexivity|].
  destruct c as [[] [] [] [] [] [] [] []]; try reflexivity.
  exfalso. apply Hne. reflexivity.
Qed.

Lemma ReplaceAll_empty (s : string) (old new : ascii) :
  ReplaceAll s old new = "" <-> s = "".
Proof. destruct s; simpl; split; congruence. Qed.

Lemma append_empty_r (s : string) : s +:+ "" = s.
Proof.
  induction s as [|c s IH]; [reflexivity|].
  change (String c (s +:+ "") = String c s). by rewrite IH.
Qed.

Lemma append_assoc (s1 s2 s3 : string) : (s1 +:+ s2) +:+ s3 = s1 +:+ (s2 +:+ s3).
Proof.
  induction s1 as [|c s1 IH]; [reflexivity|].
  change (String c ((s1 +:+ s2) +:+ s3) = String c (s1 +:+ (s2 +:+ s3))).
  by rewrite IH.
Qed.

(** ** Alias normalization *)

Lemma mimeAlias_other (m : string) :
  m <> "application/x-yaml" -> m <> "application/text" -> mimeAlias m = m.
Proof.
  intros H1 H2. unfold mimeAlias, mimeTypeAliases.
  rewrite lookup_insert_ne by congruence.
  rewrite lookup_insert_ne by congruence.
  by rewrite lookup_empty.
Qed.

(** C9. Alias normalization is idempotent, maps the two legacy spellings
    [application/x-yaml] and [application/text] to the canonical YAML and
    plain-text types, and returns every other string unchanged. *)
Theorem mimeAlias_idempotent_canonical :
  (forall m : string, mimeAlias (mimeAlias m) = mimeAlias m) /\
  mimeAlias "application/x-yaml" = "application/yaml" /\
  mimeAlias "application/text" = "text/plain" /\
  (forall m : string,
      m <> "application/x-yaml" -> m <> "application/text" -> mimeAlias m = m).
Proof.
  assert (Hy : mimeAlias "application/x-yaml" = "application/yaml") by reflexivity.
  assert (Ht : mimeAlias "application/text" = "text/plain") by reflexivity.
  split; [|split; [exact Hy|split; [exact Ht|exact mimeAlias_other]]].
  intros m.
  destruct (decide (m = "application/x-yaml")) as [->|Hny].
  { rewrite Hy. reflexivity. }
  destruct (decide (m = "application/text")) as [->|Hnt].
  { rewrite Ht. reflexivity. }
  by rewrite !(mimeAlias_other m).
Qed.

(** ** The root/path splitter *)

(** C4. [splitFSMuxURL] returns the path without a single leading separator
    (else the opaque component, else a dot) and the input URL with its path
    reset to the separator, the opaque component cleared when it was taken
    as the relative path, and scheme, authority and query unchanged. *)
Theorem splitFSMuxURL_spec (u : url.URL) :
  let stripped := stripSeparator (url.Path u) in
  let root := fst (splitFSMuxURL u) in
  snd (splitFSMuxURL u) = relativePath u /\
  (stripped <> "" -> snd (splitFSMuxURL u) = stripped) /\
  (stripped = "" -> url.Opaque u <> "" ->
     snd (splitFSMuxURL u) = url.Opaque u /\ url.Opaque root = "") /\
  (stripped = "" -> url.Opaque u = "" -> snd (splitFSMuxURL u) = ".") /\
  (stripped <> "" -> url.Opaque root = url.Opaque u) /\
  url.Path root = "/" /\
  url.Scheme root = url.Scheme u /\
  url.User root = url.User u /\
  url.Host root = url.Host u /\
  url.RawQuery root = url.RawQuery u /\
  root = url.set_Path "/" (url.set_Opaque (url.Opaque root) u).
Proof.
  cbv zeta. unfold splitFSMuxURL, relativePath. rewrite TrimPrefix_sep.
  generalize (stripSeparator (url.Path u)). intros stripped.
  destruct u as [sch opq usr hst pth rpth fq rq frg rfrg]. simpl.
  repeat case_bool_decide; simpl; repeat case_bool_decide; simpl;
    repeat split; intros; subst; simpl; congruence.
Qed.

(** ** Media-type resolution *)

Section MimeTypeProperties.
Context {World : Type} `{!url.Lib} `{!mime.Lib}.

Lemma plusForSpace_empty (s : string) : plusForSpace s = "" <-> s = "".
Proof. apply ReplaceAll_empty. Qed.

Lemma candidate_empty (sg : signals) :
  candidate sg = "" <->
  argType sg = "" /\ baseType sg = "" /\ declaredType sg = "" /\
  argExtType sg = "" /\ baseExtType sg = "".
Proof.
  destruct sg as [a b c d e]. unfold candidate, plusForSpace. simpl.
  destruct a, b, c; simpl; repeat case_bool_decide; try discriminate;
    split; intros; destruct_and?; subst; try done.
Qed.

(** [guessMimeType] in closed form. *)
Lemma guessMimeType_eq (base : url.URL) (name mimeGuess : string) :
  guessMimeType base name mimeGuess =
  match url.Parse (argSpec name) with
  | Ok nameURL => resolveType (signalsOf base mimeGuess nameURL)
  | Err err =>
      Err (Wrapf err "mimeType: couldn't parse name %q: %w" [FStr (argSpec name)])
  | Panic msg => Panic msg
  end.
Proof.
  unfold guessMimeType. cbv zeta. fold (argSpec name).
  destruct (url.Parse (argSpec name)) as [nameURL|err|msg]; try reflexivity.
  unfold resolveType, candidate, signalsOf, parseCandidate, plusForSpace. simpl.
  generalize (url.Get (url.Query nameURL) "type")
             (url.Get (url.Query base) "type")
             (mime.TypeByExtension (Ext (url.Path nameURL)))
             (mime.TypeByExtension (Ext (url.Path base))).
  intros a b d e.
  destruct a, b, mimeGuess; simpl;
    repeat (case_bool_decide; simpl); try done; try congruence.
Qed.

(** [Source.mimeType] in closed form. *)
Lemma mimeType_eq (s : Source World) (arg : string) :
  mimeType s arg =
  match url.Parse (argSpec arg) with
  | Ok argURL => resolveType (signalsOf (URL s) (mediaType s) argURL)
  | Err err =>
      Err (Wrapf err "mimeType: couldn't parse arg %q: %w" [FStr (argSpec arg)])
  | Panic msg => Panic msg
  end.
Proof.
  unfold mimeType. cbv zeta. fold (argSpec arg).
  destruct (url.Parse (argSpec arg)) as [argURL|err|msg]; try reflexivity.
  unfold resolveType, candidate, signalsOf, parseCandidate, plusForSpace. simpl.
  generalize (url.Get (url.Query argURL) "type")
             (url.Get (url.Query (URL s)) "type")
             (mime.TypeByExtension (Ext (url.Path argURL)))
             (mime.TypeByExtension (Ext (url.Path (URL s)))).
  intros a b d e.
  destruct a, b, (mediaType s); simpl;
    repeat (case_bool_decide; simpl); try done; try congruence.
Qed.

Lemma resolveType_precedence (sg : signals) : precedence sg (resolveType sg).
Proof.
  destruct sg as [a b c d e].
  unfold precedence, resolveType, candidate, plusForSpace. simpl.
  destruct a, b, c; simpl; repeat (case_bool_decide; simpl);
    repeat split; intros; subst; try done; try congruence.
Qed.

Lemma resolveType_candidate (sg : signals) :
  candidate sg <> "" -> resolveType sg = parseCandidate (candidate sg).
Proof. intros Hc. unfold resolveType. by rewrite bool_decide_eq_false_2. Qed.

Lemma resolveType_default (sg : signals) :
  candidate sg = "" -> resolveType sg = Ok textMimetype.
Proof. intros Hc. unfold resolveType. by rewrite bool_decide_eq_true_2. Qed.

(** C1. When the argument parses, both resolvers return the first non-empty
    signal in the order: [type] parameter of the argument, [type] parameter of
    the base reference, declared media type, extension table at the
    argument's path, extension table at the base path; the default
    [text/plain] when all are empty.  The winning signal is returned as
    media-type resolution hands out every candidate: parsed as a media type
    (the first three with [+] for spaces). *)
Theorem mimeType_precedence (s : Source World) (arg : string) (argURL : url.URL) :
  url.Parse (argSpec arg) = Ok argURL ->
  precedence (signalsOf (URL s) (mediaType s) argURL) (mimeType s arg) /\
  forall (base : url.URL) (mimeGuess : string),
    precedence (signalsOf base mimeGuess argURL) (guessMimeType base arg mimeGuess).
Proof.
  intros Hparse. split.
  - rewrite mimeType_eq, Hparse. apply resolveType_precedence.
  - intros base mimeGuess. rewrite guessMimeType_eq, Hparse.
    apply resolveType_precedence.
Qed.

(** C6. Once there is a non-empty candidate, the result is that candidate
    parsed: an error when it is malformed, its type without the parameters
    when it is well formed.  The default [text/plain] is the result of an
    empty candidate, which is the case exactly when all five signals are
    empty. *)
Theorem mimeType_candidate_parsed (s : Source World) (arg : string) (argURL : url.URL) :
  url.Parse (argSpec arg) = Ok argURL ->
  let sg := signalsOf (URL s) (mediaType s) argURL in
  let c := candidate sg in
  let r1 := mimeType s arg in
  let r2 := guessMimeType (URL s) arg (mediaType s) in
  (c <> "" ->
     (forall err, mime.ParseMediaType c = Err err ->
        r1 = Err (Wrapf err "MIME type was %q" [FStr c]) /\
        r2 = Err (Wrapf err "MIME type was %q" [FStr c])) /\
     (forall t params, mime.ParseMediaType c = Ok (t, params) ->
        r1 = Ok t /\ r2 = Ok t)) /\
  (c = "" <->
     argType sg = "" /\ baseType sg = "" /\ declaredType sg = "" /\
     argExtType sg = "" /\ baseExtType sg = "") /\
  (c = "" -> r1 = Ok textMimetype /\ r2 = Ok textMimetype).
Proof.
  intros Hparse. cbv zeta.
  rewrite mimeType_eq, guessMimeType_eq, Hparse.
  set (sg := signalsOf (URL s) (mediaType s) argURL).
  split; [|split].
  - intros Hc. rewrite resolveType_candidate by done. unfold parseCandidate.
    split.
    + intros err ->. done.
    + intros t params ->. done.
  - apply candidate_empty.
  - intros Hc. by rewrite resolveType_default.
Qed.

(** C10. [s.mimeType(a)] and [guessMimeType(s.URL, a, s.mediaType)] have the
    same outcome: the same type on success, and an error (of the same cause)
    or a panic in the same cases. *)
Theorem mimeType_guessMimeType_equiv (s : Source World) (a : string) :
  sameOutcome (mimeType s a) (guessMimeType (URL s) a (mediaType s)) /\
  (forall t, mimeType s a = Ok t <-> guessMimeType (URL s) a (mediaType s) = Ok t) /\
  (is_Err (mimeType s a) = is_Err (guessMimeType (URL s) a (mediaType s))) /\
  (forall e1 e2,
      mimeType s a = Err e1 -> guessMimeType (URL s) a (mediaType s) = Err e2 ->
      sameError e1 e2).
Proof.
  rewrite mimeType_eq, guessMimeType_eq.
  destruct (url.Parse (argSpec a)) as [argURL|err|msg]; simpl.
  - destruct (resolveType _) as [t|e|msg]; simpl; repeat split; try done.
    intros e1 e2 [= <-] [= <-]. by left.
  - repeat split; try done.
    intros e1 e2 [= <-] [= <-]. right. by exists err, (argSpec a).
  - repeat split; try done.
Qed.

End MimeTypeProperties.

(** ** The aws+smp reader *)

Section AWSSMPProperties.
Context {World : Type} `{!url.Lib} `{!path.Lib} `{!Helpers World}.

Lemma parseDatasourceURLArgs_Err (sourceURL : url.URL) (args : list string) (e : error) :
  parseDatasourceURLArgs sourceURL args = Err e ->
  ((2 <= length args)%nat /\
   e = tooManyArguments (url.Scheme sourceURL) (length args)) \/
  (exists a, args = [a] /\ url.Parse a = Err e).
Proof.
  unfold parseDatasourceURLArgs. case_decide as Hlen.
  - intros [= <-]. by left.
  - destruct args as [|a [|a' rest]]; simpl in *; try lia; try done.
    destruct (url.Parse a) as [parsed|err|msg] eqn:Hp; try done.
    intros [= <-]. right. by exists a.
Qed.

Lemma tooManyArguments_message (scheme : string) (found : nat) :
  errorMessage (tooManyArguments scheme found)
  = "maximum two arguments to " +:+ scheme +:+
    " datasource: alias, extraPath (found " +:+ Itoa found +:+ ")".
Proof. reflexivity. Qed.

(** C7. With two or more arguments [parseDatasourceURLArgs] fails with the
    error that names the limit ("maximum two arguments") and the number of
    arguments found; with no argument it succeeds, and with one argument it
    fails only as [url.Parse] fails on that argument, never with the
    too-many-arguments error. *)
Theorem parseDatasourceURLArgs_arity (sourceURL : url.URL) (args : list string) :
  ((2 <= length args)%nat ->
     parseDatasourceURLArgs sourceURL args
       = Err (tooManyArguments (url.Scheme sourceURL) (length args)) /\
     errorMessage (tooManyArguments (url.Scheme sourceURL) (length args))
       = "maximum two arguments to " +:+ url.Scheme sourceURL +:+
         " datasource: alias, extraPath (found " +:+ Itoa (length args) +:+ ")") /\
  ((length args <= 1)%nat ->
     (forall scheme found,
         parseDatasourceURLArgs sourceURL args <> Err (tooManyArguments scheme found)) /\
     (forall e, parseDatasourceURLArgs sourceURL args = Err e ->
                exists a, args = [a] /\ url.Parse a = Err e)) /\
  (args = [] -> is_Ok (parseDatasourceURLArgs sourceURL args) = true).
Proof.
  split; [|split].
  - intros Hlen. split; [|apply tooManyArguments_message].
    unfold parseDatasourceURLArgs. by rewrite decide_True.
  - intros Hlen.
    assert (Hprop : forall e, parseDatasourceURLArgs sourceURL args = Err e ->
                              exists a, args = [a] /\ url.Parse a = Err e).
    { intros e He. destruct (parseDatasourceURLArgs_Err _ _ _ He) as [[? _]|?];
        [lia|done]. }
    split; [|exact Hprop].
    intros scheme found Heq. destruct (Hprop _ Heq) as (a & _ & Hp).
    destruct (url.Parse_error _ _ Hp) as [msg Hmsg]. discriminate.
  - intros ->. reflexivity.
Qed.

Lemma slice_from_prefix (prefix sfx : string) :
  slice_from (String.length prefix) (prefix +:+ sfx) = Some sfx.
Proof.
  unfold slice_from.
  assert (Hlen : (String.length prefix <= String.length (prefix +:+ sfx))%nat).
  { induction prefix as [|c p IH]; simpl; [lia|].
    change (String c p +:+ sfx) with (String c (p +:+ sfx)). simpl. lia. }
  rewrite decide_True by exact Hlen. f_equal.
  clear Hlen. induction prefix as [|c p IH]; [reflexivity|]. exact IH.
Qed.

(** The listing of parameters whose names all start with the path. *)
Lemma listing_of_names (prefix : string) (ps : list ssm.Parameter_) (suffixes : list string) :
  map ssm.Name ps = map (fun sfx => prefix +:+ sfx) suffixes ->
  mapM (fun p => slice_from (String.length prefix) (ssm.Name p)) ps = Some suffixes.
Proof.
  intros Hnames. apply mapM_Some. revert suffixes Hnames.
  induction ps as [|p ps IH]; intros [|sfx suffixes]; simpl; intros Hnames;
    try discriminate; constructor.
  - injection Hnames as -> _. apply slice_from_prefix.
  - apply IH. by injection Hnames.
Qed.

Lemma readAWSSMP_eq (source : Source World) (args : list string) (w : World) :
  readAWSSMP source args w =
  let '(w0, g) := clientOf source w in
  let source0 := set_asmpg (Some g) source in
  match parseDatasourceURLArgs (URL source) args with
  | Ok (_, paramPath) =>
      if HasSuffix paramPath "/" then
        let source' := set_mediaType jsonArrayMimetype (set_mediaType jsonMimetype source0) in
        let '(w', r) := listAWSSMPParams source' paramPath w0 in (w', source', r)
      else
        let source' := set_mediaType jsonMimetype source0 in
        let '(w', r) := readAWSSMPParam source' paramPath w0 in (w', source', r)
  | Err err => (w0, source0, Err err)
  | Panic msg => (w0, source0, Panic msg)
  end.
Proof.
  unfold readAWSSMP, clientOf.
  destruct source as [al u hd [g|] mt]; simpl.
  - reflexivity.
  - destruct (ssm_New w) as [w0 g]. reflexivity.
Qed.

(** C5 (as amended). A call of [readAWSSMP] whose arguments parse to the path
    [paramPath]: when the path ends with the separator it makes the one call
    [GetParametersByPath] on that path, returns [ToJSON] of the names without
    the path prefix and sets the declared media type of the source to the
    JSON-array type; otherwise it makes the one call [GetParameter] on the
    path, returns [ToJSON] of the parameter and sets the declared media type
    to the JSON type.  The type it sets depends on nothing but the form of
    the path; it is the declared type of the source, which [readSource]
    consults after the [type] query parameters. *)
Theorem readAWSSMP_directory_leaf
    (source : Source World) (args : list string) (w : World)
    (params : gmap string string) (paramPath : string) :
  parseDatasourceURLArgs (URL source) args = Ok (params, paramPath) ->
  let w' := (readAWSSMP source args w).1.1 in
  let source' := (readAWSSMP source args w).1.2 in
  let r := (readAWSSMP source args w).2 in
  let w0 := (clientOf source w).1 in
  let g := (clientOf source w).2 in
  (HasSuffix paramPath "/" = true ->
     mediaType source' = jsonArrayMimetype /\
     forall w1 response,
       GetParametersByPathWithContext g (ssm.mkGetParametersByPathInput paramPath) w0
         = (w1, response) ->
       w' = w1 /\
       match response with
       | Ok out =>
           forall suffixes,
             map ssm.Name (ssm.outParameters out)
               = map (fun sfx => paramPath +:+ sfx) suffixes ->
             r = ToJSON (JStrings suffixes)
       | Err err => r = Err (fetchError err paramPath)
       | Panic msg => r = Panic msg
       end) /\
  (HasSuffix paramPath "/" = false ->
     mediaType source' = jsonMimetype /\
     forall w1 response,
       GetParameterWithContext g (ssm.mkGetParameterInput paramPath true) w0
         = (w1, response) ->
       w' = w1 /\
       match response with
       | Ok out => r = ToJSON (JParameter (ssm.outParameter out))
       | Err err => r = Err (fetchError err paramPath)
       | Panic msg => r = Panic msg
       end).
Proof.
  intros Hparse. cbv zeta. rewrite readAWSSMP_eq, Hparse.
  destruct (clientOf source w) as [w0 g]. simpl.
  split; intros Hsfx; rewrite Hsfx.
  - unfold listAWSSMPParams. simpl.
    destruct (GetParametersByPathWithContext g _ w0) as [w1 response] eqn:Hget.
    split.
    { by destruct response as [out|err|msg];
        [destruct (mapM _ _)| |]. }
    intros w1' response' [= <- <-].
    destruct response as [out|err|msg]; simpl; try done.
    split.
    { by destruct (mapM _ _). }
    intros suffixes Hnames.
    by rewrite (listing_of_names _ _ _ Hnames).
  - unfold readAWSSMPParam. simpl.
    destruct (GetParameterWithContext g _ w0) as [w1 response] eqn:Hget.
    split.
    { by destruct response. }
    intros w1' response' [= <- <-].
    by destruct response.
Qed.

(** C8 (as amended). [readAWSSMP] writes the media type of the source on
    every call whose arguments parse, before it fetches and whatever the
    fetch returns: the JSON type, overwritten by the JSON-array type for a
    path that ends with the separator.  Only a call that fails on its
    arguments leaves the media type as it was. *)
Theorem readAWSSMP_mediaType_written
    (source : Source World) (args : list string) (w : World) :
  let source' := (readAWSSMP source args w).1.2 in
  match parseDatasourceURLArgs (URL source) args with
  | Ok (_, paramPath) =>
      mediaType source' =
        if HasSuffix paramPath "/" then jsonArrayMimetype else jsonMimetype
  | _ => mediaType source' = mediaType source
  end.
Proof.
  cbv zeta. rewrite readAWSSMP_eq.
  destruct (clientOf source w) as [w0 g].
  destruct (parseDatasourceURLArgs (URL source) args) as [[params paramPath]|err|msg];
    simpl; try reflexivity.
  destruct (HasSuffix paramPath "/").
  - by destruct (listAWSSMPParams _ _ _).
  - by destruct (readAWSSMPParam _ _ _).
Qed.

End AWSSMPProperties.

(** ** The reference resolver *)

(** [for key := range src { dst[key] = g(key) }], key by key. *)
Lemma range_fold_lookup {A B} (g : string -> B) (src : gmap string A)
    (dst : gmap string B) (k : string) :
  map_fold (fun key _ acc => <[key := g key]> acc) dst src !! k =
  match src !! k with
  | Some _ => Some (g k)
  | None => dst !! k
  end.
Proof.
  revert k.
  apply (map_fold_weak_ind
           (fun r m => forall k, r !! k = match m !! k with
                                          | Some _ => Some (g k)
                                          | None => dst !! k
                                          end)).
  - intros k. by rewrite lookup_empty.
  - intros i x m r Hi IH k. destruct (decide (i = k)) as [->|Hne].
    + by rewrite !lookup_insert_eq.
    + rewrite !lookup_insert_ne by done. apply IH.
Qed.

Lemma range_assign_lookup {A B} (f : A -> B) (src : gmap string A)
    (dst : gmap string B) (k : string) :
  range_assign f src dst !! k =
  match src !! k with
  | Some val => Some (f val)
  | None => dst !! k
  end.
Proof.
  unfold range_assign. revert k.
  apply (map_fold_weak_ind
           (fun r m => forall k, r !! k = match m !! k with
                                          | Some val => Some (f val)
                                          | None => dst !! k
                                          end)).
  - intros k. by rewrite lookup_empty.
  - intros i x m r Hi IH k. destruct (decide (i = k)) as [->|Hne].
    + by rewrite !lookup_insert_eq.
    + rewrite !lookup_insert_ne by done. apply IH.
Qed.

Section ResolveURLProperties.
Context `{!url.Lib}.

(** C2 (as amended). [resolveURL] fails exactly when [url.Parse] fails on
    the relative string; otherwise it returns [ResolveReference] of the base
    and the relative reference, with the query of the relative reference
    when the base has no query, and else with the encoding of the merged
    values: a key of the relative query has the first of the relative
    reference's values for it as its only value, and every other key has
    the values it has in the base query. *)
Theorem resolveURL_merge (base : url.URL) (rel : string) :
  is_Err (resolveURL base rel) = is_Err (url.Parse rel) /\
  (forall e, url.Parse rel = Err e -> resolveURL base rel = Err e) /\
  (forall relURL, url.Parse rel = Ok relURL ->
     exists out,
       resolveURL base rel = Ok out /\
       (url.RawQuery base = "" ->
          out = url.ResolveReference base relURL /\
          url.RawQuery out = url.RawQuery relURL) /\
       (url.RawQuery base <> "" ->
          exists merged : url.Values,
            out = url.set_RawQuery (url.Encode merged)
                    (url.ResolveReference base relURL) /\
            url.RawQuery out = url.Encode merged /\
            (forall k vs, url.Query relURL !! k = Some vs ->
               merged !! k = Some [url.Get (url.Query relURL) k]) /\
            (forall k, url.Query relURL !! k = None ->
               merged !! k = url.Query base !! k))).
Proof.
  unfold resolveURL.
  destruct (url.Parse rel) as [relURL|err|msg]; simpl.
  - split; [by case_bool_decide|]. split; [done|].
    intros ? [= <-]. case_bool_decide as Hq; simpl.
    + eexists. split; [reflexivity|]. split; [|done].
      intros _. split; [reflexivity|]. by apply url.ResolveReference_RawQuery.
    + eexists. split; [reflexivity|]. split; [done|].
      intros _. eexists. split; [reflexivity|]. split; [by destruct (url.ResolveReference _ _)|].
      unfold url.Set_.
      split.
      * intros k vs Hk.
        rewrite (range_fold_lookup (fun key => [url.Get (url.Query relURL) key])).
        by rewrite Hk.
      * intros k Hk.
        rewrite (range_fold_lookup (fun key => [url.Get (url.Query relURL) key])).
        by rewrite Hk.
  - split; [done|]. split; [by intros ? [= <-]|done].
  - split; [done|]. split; done.
Qed.

End ResolveURLProperties.

(** ** The source cache *)

Lemma cacheKey_concat (alias : string) (args : list string) :
  foldl (fun cacheKey v => cacheKey +:+ v) alias args = alias +:+ concatArgs args.
Proof.
  revert alias. induction args as [|a args IH]; intros alias; simpl.
  - by rewrite append_empty_r.
  - by rewrite IH, append_assoc.
Qed.

Section ReadSourceProperties.
Context {World : Type} `{!url.Lib} `{!mime.Lib} `{!path.Lib} `{!Helpers World}
        `{!fsimpl.Lib World} `{!Readers World}.

(** A property of the cache that the merge reader, which reads other sources
    through [d], preserves. *)
Definition mergeStable (P : gmap string fileContent -> Prop) : Prop :=
  forall (d : Data World) (source : Source World) (args : list string) (w : World),
    P (cache d) -> P (cache (readMerge d source args w).1.1.2).

Section Frame.
Variable P : gmap string fileContent -> Prop.
Hypothesis P_merge : mergeStable P.

Let I (s : state World) : Prop := P (cache (data s)).

Create HintDb frame.

(** [triple Pre m K]: from a state with [Pre], [m] ends with [K] on a value
    and with [I] on an error or a panic. *)
Definition triple {A} (Pre : state World -> Prop) (m : M (state World) A)
    (K : A -> state World -> Prop) : Prop :=
  forall s s' r, Pre s -> m s = (s', r) ->
    match r with Ok a => K a s' | _ => I s' end.

Definition keeps {A} (m : M (state World) A) : Prop := triple I m (fun _ s' => I s').

Lemma triple_bind {A B} Pre (m : M (state World) A) (k : A -> M (state World) B) K1 K :
  triple Pre m K1 -> (forall a, triple (K1 a) (k a) K) -> triple Pre (m ≫= k) K.
Proof.
  intros Hm Hk s s' r HI. unfold mbind, M_bind.
  destruct (m s) as [s1 [a|e|msg]] eqn:Hms; specialize (Hm _ _ _ HI Hms); simpl in Hm.
  - apply Hk. exact Hm.
  - by intros [= <- <-].
  - by intros [= <- <-].
Qed.

Lemma triple_weaken {A} (Pre Pre' : state World -> Prop) (m : M (state World) A) K :
  (forall s, Pre' s -> Pre s) -> triple Pre m K -> triple Pre' m K.
Proof. intros Himp Hm s s' r HI. apply Hm. by apply Himp. Qed.

Lemma keeps_bind {A B} (m : M (state World) A) (k : A -> M (state World) B) K :
  keeps m -> (forall a, triple I (k a) K) -> triple I (m ≫= k) K.
Proof. apply triple_bind. Qed.

Lemma keeps_ret {A} (a : A) : keeps (mret a).
Proof. by intros s s' r HI [= <- <-]. Qed.

Lemma keeps_pure_result {A} (x : result A) : keeps (pure_result x).
Proof. intros s s' r HI [= <- <-]. by destruct x. Qed.

Lemma triple_get_data :
  triple I get_data (fun d s' => I s' /\ d = data s').
Proof. by intros s s' r HI [= <- <-]. Qed.

Lemma triple_get_src :
  triple I get_src (fun source s' => I s' /\ source = src s').
Proof. by intros s s' r HI [= <- <-]. Qed.

Lemma keeps_get_src : keeps get_src.
Proof. by intros s s' r HI [= <- <-]. Qed.

Lemma keeps_io {A} (f : World -> World * result A) : keeps (io f).
Proof.
  intros s s' r HI. unfold io. destruct (f (world s)) as [w x].
  intros [= <- <-]. by destruct x.
Qed.

Lemma keeps_or_wrap {A} (m : M (state World) A) (f : error -> error) :
  keeps m -> keeps (or_wrap m f).
Proof.
  intros Hm s s' r HI. unfold or_wrap.
  destruct (m s) as [s1 [a|e|msg]] eqn:Hms; specialize (Hm _ _ _ HI Hms);
    by intros [= <- <-].
Qed.

Lemma keeps_attempt {A} (m : M (state World) A) : keeps m -> keeps (attempt m).
Proof.
  intros Hm s s' r HI. unfold attempt.
  destruct (m s) as [s1 [a|e|msg]] eqn:Hms; specialize (Hm _ _ _ HI Hms);
    by intros [= <- <-].
Qed.

Lemma keeps_lookupReader (scheme : string) : keeps (lookupReader scheme).
Proof.
  intros s s' r HI. unfold lookupReader, mbind, M_bind, get_data, put_data. simpl.
  destruct (sourceReaders (data s)) as [readers|] eqn:Hr; simpl.
  - rewrite Hr. destruct (readers !! scheme); by intros [= <- <-].
  - destruct (_ !! scheme); by intros [= <- <-].
Qed.

Lemma keeps_call_reader (rd : reader) (args : list string) : keeps (call_reader rd args).
Proof.
  intros s s' r HI. unfold call_reader. destruct rd.
  - destruct (readAWSSMP _ _ _) as [[w source] res]. intros [= <- <-]. by destruct res.
  - destruct (readConsul _ _ _) as [[w source] res]. intros [= <- <-]. by destruct res.
  - pose proof (P_merge (data s) (src s) args (world s) HI) as Hm.
    destruct (readMerge _ _ _ _) as [[[w d] source] res]. intros [= <- <-].
    by destruct res.
  - destruct (readStdin _ _ _) as [[w source] res]. intros [= <- <-]. by destruct res.
Qed.

(** [store] is the one write of the cache. *)
Lemma triple_store (cacheKey : string) (data_ : bytes) (mimeType_ : string) :
  triple I (store cacheKey data_ mimeType_)
    (fun fc s' => fc = mkFileContent data_ mimeType_ /\
                  exists c, P c /\ cache (data s') = <[cacheKey := fc]> c).
Proof.
  intros s s' r HI [= <- <-]. simpl. split; [done|]. by exists (cache (data s)).
Qed.

Lemma triple_post {A} Pre (m : M (state World) A) (K K' : A -> state World -> Prop) :
  (forall a s, K a s -> K' a s) -> triple Pre m K -> triple Pre m K'.
Proof.
  intros Himp Hm s s' r HI Hms. specialize (Hm _ _ _ HI Hms).
  destruct r; [by apply Himp|done|done].
Qed.

Lemma triple_panic {A} (msg : string) (K : A -> state World -> Prop) :
  triple I (pure_result (Panic msg)) K.
Proof. by intros s s' r HI [= <- <-]. Qed.

Lemma keeps_get_data : keeps get_data.
Proof. by intros s s' r HI [= <- <-]. Qed.

#[local] Hint Resolve keeps_ret keeps_pure_result keeps_get_src keeps_get_data
  keeps_io keeps_or_wrap keeps_attempt keeps_lookupReader keeps_call_reader : frame.

(** The pipeline after a cache miss: a value is stored under the key and
    returned; an error or a panic leaves the cache as it found it, up to
    what the merge reader did to it. *)
Lemma triple_fetchSource (cacheKey : string) (args : list string) :
  triple I (fetchSource cacheKey args)
    (fun fc s' => exists c, P c /\ cache (data s') = <[cacheKey := fc]> c).
Proof.
  assert (Hstore : forall data_ mimeType_,
    triple I (store cacheKey data_ mimeType_)
      (fun fc s' => exists c, P c /\ cache (data s') = <[cacheKey := fc]> c)).
  { intros data_ mimeType_. eapply triple_post; [|apply triple_store].
    by intros fc s [_ Hc]. }
  unfold fetchSource.
  eapply triple_bind; [apply triple_get_data|]. intros d.
  eapply (triple_bind _ _ _ (fun _ s' => I s')).
  { intros s s' r [HI ->]. destruct (FSMux (data s)); by intros [= <- <-]. }
  intros _.
  apply keeps_bind; [auto with frame|]. intros source.
  apply keeps_bind; [auto with frame|]. intros u.
  destruct (splitFSMuxURL u) as [root fname].
  apply keeps_bind; [auto with frame|]. intros d'.
  destruct (FSMux d') as [mux|]; [|apply triple_panic].
  apply keeps_bind; [auto with frame|]. intros [fsys|lookupErr].
  - apply keeps_bind; [auto with frame|]. intros f.
    apply keeps_bind; [auto with frame|]. intros fi.
    destruct (fsimpl.IsDir fi).
    + apply keeps_bind; [auto with frame|]. intros des.
      apply keeps_bind; [auto with frame|]. intros data_.
      apply Hstore.
    + apply keeps_bind; [auto with frame|]. intros data_.
      apply Hstore.
  - apply keeps_bind; [auto with frame|]. intros rd.
    apply keeps_bind; [auto with frame|]. intros data_.
    apply keeps_bind; [|intros mimeType_; apply Hstore].
    case_bool_decide; [|auto with frame].
    apply keeps_bind; [auto with frame|]. intros source'.
    apply keeps_pure_result.
Qed.

End Frame.

Lemma cacheKeyOf_eq (source : Source World) (args : list string) :
  cacheKeyOf source args = Alias source +:+ concatArgs args.
Proof. apply cacheKey_concat. Qed.

Lemma readSource_hit (args : list string) (s : state World) (cached : fileContent) :
  cache (data s) !! cacheKeyOf (src s) args = Some cached ->
  readSource args s = (s, Ok cached).
Proof.
  intros Hc. unfold readSource, mbind, M_bind, get_src, get_data. simpl.
  by rewrite Hc.
Qed.

Lemma readSource_miss (args : list string) (s : state World) :
  cache (data s) !! cacheKeyOf (src s) args = None ->
  readSource args s = fetchSource (cacheKeyOf (src s) args) args s.
Proof.
  intros Hc. unfold readSource, mbind, M_bind, get_src, get_data. simpl.
  by rewrite Hc.
Qed.

(** C3. The cache key of [readSource] is the alias followed by the arguments
    in call order.  When the key is in the cache, the stored entry is
    returned and the state (the outside world, the [Data], the [Source]) is
    untouched: no reader and no provider ran.  Otherwise the pipeline runs;
    when it succeeds the returned entry is stored under the key; when it
    fails, [readSource] has written nothing to the cache: every property of
    the cache that the merge reader's own reads of other sources preserve
    still holds, so the key is still missing and a later call runs the
    pipeline again. *)
Theorem readSource_cache (args : list string) (s : state World) :
  let key := Alias (src s) +:+ concatArgs args in
  let s' := (readSource args s).1 in
  let r := (readSource args s).2 in
  cacheKeyOf (src s) args = key /\
  match cache (data s) !! key with
  | Some cached => r = Ok cached /\ s' = s
  | None =>
      readSource args s = fetchSource key args s /\
      match r with
      | Ok fc => cache (data s') !! key = Some fc
      | _ =>
          forall P : gmap string fileContent -> Prop,
            mergeStable P -> P (cache (data s)) -> P (cache (data s'))
      end
  end.
Proof.
  cbv zeta. rewrite <- cacheKeyOf_eq. split; [reflexivity|].
  destruct (cache (data s) !! cacheKeyOf (src s) args) as [cached|] eqn:Hc.
  - by rewrite (readSource_hit _ _ _ Hc).
  - rewrite (readSource_miss _ _ Hc). split; [reflexivity|].
    destruct (fetchSource _ args s) as [s' r] eqn:Hf. simpl.
    destruct r as [fc|e|msg].
    + pose proof (triple_fetchSource (fun _ => True) (fun _ _ _ _ _ => Logic.I)
                    _ _ s s' (Ok fc) Logic.I Hf) as (c & _ & ->).
      apply lookup_insert_eq.
    + intros P HP HPs.
      exact (triple_fetchSource P HP _ _ s s' (Err e) HPs Hf).
    + intros P HP HPs.
      exact (triple_fetchSource P HP _ _ s s' (Panic msg) HPs Hf).
Qed.

(** After a failed call the key is still missing, unless the merge reader
    itself stored it, and the same call misses the cache again. *)
Corollary readSource_failure_not_cached (args : list string) (s : state World) :
  let key := cacheKeyOf (src s) args in
  mergeStable (fun c => c !! key = None) ->
  cache (data s) !! key = None ->
  is_Ok (readSource args s).2 = false ->
  cache (data (readSource args s).1) !! key = None.
Proof.
  cbv zeta. intros Hmerge Hc Hr. rewrite (readSource_miss _ _ Hc) in *.
  destruct (fetchSource _ args s) as [s' r] eqn:Hf. simpl in *.
  pose proof (triple_fetchSource _ Hmerge _ _ s s' r Hc Hf) as Hspec.
  by destruct r.
Qed.

End ReadSourceProperties.

(** * The package on the reference implementation and the stub backend *)

Section Evaluation.

#[local] Existing Instance Ref.url_lib.
#[local] Existing Instance Ref.mime_lib.
#[local] Existing Instance Ref.path_lib.
#[local] Existing Instance Stub.helpers.
#[local] Existing Instance Stub.fs_lib.
#[local] Existing Instance Stub.readers.

(** The value of a result, if it is one. *)
Definition result_value {A} (r : result A) : option A :=
  match r with
  | Ok a => Some a
  | _ => None
  end.

(** The URL [resolveURL] returns, if it returns one. *)
Definition resolveURL_ok (base : url.URL) (rel : string) : option url.URL :=
  match resolveURL base rel with
  | Ok out => Some out
  | _ => None
  end.

(** [mustParseURL] of an absolute URL with a host, a path and a query. *)
Definition absURL (scheme host path_ query : string) : url.URL :=
  url.mkURL scheme "" None host path_ "" false query "" "".

Definition sourceAt (u : url.URL) (declared : string) : Source Stub.World :=
  mkSource "" u ∅ None declared.

(** The cases of [TestMimeType]. *)
Example TestMimeType :
  is_Err (mimeType (sourceAt (absURL "http" "example.com" "/list" "type=a/b/c") "") "") = true /\
  Forall (fun '(u, declared, expected) =>
            mimeType (sourceAt u declared) "" = Ok expected /\
            guessMimeType u "" declared = Ok expected)
    [ (absURL "http" "example.com" "/foo.json" "", "", jsonMimetype);
      (absURL "http" "example.com" "/foo.json" "", "text/foo", "text/foo");
      (absURL "http" "example.com" "/foo.json" "type=application/yaml", "text/foo",
       "application/yaml");
      (absURL "http" "example.com" "/list" "type=application/array%2Bjson", "text/foo",
       "application/array+json");
      (absURL "http" "example.com" "/list" "type=application/array+json", "",
       "application/array+json");
      (absURL "http" "example.com" "/unknown" "", "", "text/plain") ].
Proof. split; [reflexivity|]. repeat constructor. Qed.

(** The cases of [TestMimeTypeWithArg]. *)
Example TestMimeTypeWithArg :
  is_Err (mimeType (sourceAt (absURL "http" "example.com" "" "") "")
            (String (ascii_of_nat 104) (String (ascii_of_nat 10) "ttp://foo"))) = true /\
  Forall (fun '(u, declared, arg, expected) =>
            mimeType (sourceAt u declared) arg = Ok expected /\
            guessMimeType u arg declared = Ok expected)
    [ (absURL "http" "example.com" "/unknown" "", "", "/foo.json", "application/json");
      (absURL "http" "example.com" "/unknown" "", "", "foo.json", "application/json");
      (absURL "http" "example.com" "/" "", "text/foo", "/foo.json", "text/foo");
      (absURL "git+https" "example.com" "/myrepo" "", "", "//foo.yaml", "application/yaml");
      (absURL "http" "example.com" "/foo.json" "", "", "/foo.yaml", "application/yaml");
      (absURL "http" "example.com" "/foo.json" "type=application/array+yaml", "",
       "/foo.yaml", "application/array+yaml");
      (absURL "http" "example.com" "/foo.json" "type=application/array+yaml", "",
       "/foo.yaml?type=application/yaml", "application/yaml");
      (absURL "http" "example.com" "/foo.json" "type=application/array+yaml", "text/plain",
       "/foo.yaml?type=application/yaml", "application/yaml") ].
Proof. split; [reflexivity|]. repeat constructor. Qed.

(** The cases of [TestResolveURL]. *)
Example TestResolveURL :
  url.String_ <$> resolveURL_ok (absURL "http" "example.com" "/foo.json" "") "bar.json"
    = Some "http://example.com/bar.json" /\
  url.String_ <$> resolveURL_ok (absURL "http" "example.com" "/a/b/" "n=2") "bar.json?q=1"
    = Some "http://example.com/a/b/bar.json?n=2&q=1".
Proof. split; reflexivity. Qed.

(** C1 at a source with all five signals present: the [type] parameter of
    the argument wins. *)
Lemma mimeType_precedence_witness :
  url.Parse (argSpec "foo.yaml?type=application/yaml")
    = Ok (url.mkURL "" "" None "" "/foo.yaml" "" false "type=application/yaml" "" "") /\
  mimeType (sourceAt (absURL "http" "example.com" "/foo.json" "type=application/array+yaml")
                     "text/plain")
           "foo.yaml?type=application/yaml"
    = Ok "application/yaml".
Proof.
  assert (Hparse : url.Parse (argSpec "foo.yaml?type=application/yaml")
    = Ok (url.mkURL "" "" None "" "/foo.yaml" "" false "type=application/yaml" "" ""))
    by reflexivity.
  split; [exact Hparse|].
  destruct (mimeType_precedence
              (sourceAt (absURL "http" "example.com" "/foo.json"
                                "type=application/array+yaml") "text/plain")
              _ _ Hparse) as [[Harg _] _].
  rewrite Harg; [reflexivity|discriminate].
Defined.

(** C6 at the malformed [type=a/b/c] of [TestMimeType]: an error, not the
    default. *)
Lemma mimeType_candidate_parsed_witness :
  url.Parse (argSpec "") = Ok url.zero /\
  mimeType (sourceAt (absURL "http" "example.com" "/list" "type=a/b/c") "") ""
    = Err (Wrapf (LibError "mime: unexpected content after media subtype")
                 "MIME type was %q" [FStr "a/b/c"]).
Proof.
  assert (Hparse : url.Parse (argSpec "") = Ok url.zero) by reflexivity.
  split; [exact Hparse|].
  destruct (mimeType_candidate_parsed
              (sourceAt (absURL "http" "example.com" "/list" "type=a/b/c") "")
              _ _ Hparse) as [Hcand _].
  destruct Hcand as [Hmalformed _]; [discriminate|].
  apply Hmalformed. reflexivity.
Defined.

(** C5 at the directory [/foo/] of the stub store: the names below it. *)
Lemma readAWSSMP_directory_leaf_witness :
  parseDatasourceURLArgs (URL Stub.source0) ["/"] = Ok (∅, "/foo/") /\
  mediaType (readAWSSMP Stub.source0 ["/"] Stub.world0).1.2 = "application/array+json" /\
  (readAWSSMP Stub.source0 ["/"] Stub.world0).2 = ToJSON (JStrings ["bar"; "baz"]).
Proof.
  assert (Hparse : parseDatasourceURLArgs (URL Stub.source0) ["/"] = Ok (∅, "/foo/"))
    by reflexivity.
  split; [exact Hparse|].
  destruct (readAWSSMP_directory_leaf Stub.source0 ["/"] Stub.world0 _ _ Hparse)
    as [Hdir _].
  destruct Hdir as [Htype Hlist]; [reflexivity|]. split; [exact Htype|].
  edestruct Hlist as [_ Hjson]; [reflexivity|].
  apply (Hjson ["bar"; "baz"]). reflexivity.
Defined.

(** C2, counterexample: the values of a key that repeats within a reference
    are not joined with a space.  For the relative reference
    [bar.json?q=1&q=2] the resolved query has [q=1] alone; a key repeated in
    the base query keeps its values apart. *)
Lemma resolveURL_repeated_key_counterexample :
  let base := absURL "http" "x" "/a/b/" "n=2&n=3" in
  exists relURL out,
    url.Parse "bar.json?q=1&q=2" = Ok relURL /\
    resolveURL base "bar.json?q=1&q=2" = Ok out /\
    url.Query relURL !! "q" = Some ["1"; "2"] /\
    url.Query base !! "n" = Some ["2"; "3"] /\
    url.RawQuery out = "n=2&n=3&q=1" /\
    url.Query out !! "q" = Some ["1"] /\
    url.Query out !! "n" = Some ["2"; "3"] /\
    url.Query out !! "q" <> Some [Join ["1"; "2"] " "] /\
    url.Query out !! "n" <> Some [Join ["2"; "3"] " "].
Proof.
  cbv zeta. eexists _, _. split; [reflexivity|]. split; [reflexivity|].
  repeat split; try reflexivity; vm_compute; discriminate.
Qed.

(** C8, counterexample: a source whose media type was never set, read while
    the store is out of reach.  The fetch fails and the media type of the
    source is the JSON type afterwards; a second read, of a directory,
    writes it again. *)
Lemma readAWSSMP_failed_fetch_counterexample :
  let first := readAWSSMP Stub.source0 [] Stub.offline in
  let second := readAWSSMP first.1.2 ["/"] first.1.1 in
  mediaType Stub.source0 = "" /\
  is_Err first.2 = true /\
  mediaType first.1.2 = "application/json" /\
  is_Err second.2 = true /\
  mediaType second.1.2 = "application/array+json".
Proof. cbv zeta. repeat split; reflexivity. Qed.

(** C5, counterexample: a directory read with a [type] parameter on the
    argument.  The reader is asked for the path [/foo/], lists it and sets
    the media type of the source to the JSON-array type, and the content
    type of the entry [readSource] returns is the one of the parameter. *)
Lemma readSource_type_parameter_counterexample :
  let st := mkState Stub.world0 Stub.data0 Stub.source0 in
  let out := readSource ["/?type=text/plain"] st in
  (exists params,
      parseDatasourceURLArgs (URL Stub.source0) ["/?type=text/plain"]
        = Ok (params, "/foo/")) /\
  HasSuffix "/foo/" "/" = true /\
  Stub.calls (world out.1) = ["GetParametersByPath /foo/"] /\
  mediaType (src out.1) = "application/array+json" /\
  (exists listing,
      ToJSON (JStrings ["bar"; "baz"]) = Ok listing /\
      out.2 = Ok (mkFileContent listing "text/plain")) /\
  "text/plain" <> jsonArrayMimetype.
Proof.
  cbv zeta. split; [eexists; reflexivity|].
  repeat split; try reflexivity; [|discriminate].
  eexists. split; reflexivity.
Qed.

(** Without a [type] parameter the content type of a directory read is the
    JSON-array type and the one of a leaf read the JSON type. *)
Example readSource_awssmp_contentType :
  let st := mkState Stub.world0 Stub.data0 Stub.source0 in
  contentType <$> result_value (readSource ["/"] st).2 = Some "application/array+json" /\
  contentType <$> result_value (readSource ["bar"] st).2 = Some "application/json".
Proof. split; reflexivity. Qed.

(** Three arguments to the reader: the error names the limit and the count. *)
Example parseDatasourceURLArgs_three_arguments :
  exists e,
    parseDatasourceURLArgs (URL Stub.source0) ["a"; "b"; "c"] = Err e /\
    errorMessage e
      = "maximum two arguments to aws+smp datasource: alias, extraPath (found 3)".
Proof. eexists. split; reflexivity. Qed.

(** Cache at-most-once on the counting stub: two reads with the same
    arguments make one call of the backend, and the second returns the
    entry of the first. *)
Example readSource_twice_one_fetch :
  let st := mkState Stub.world0 Stub.data0 Stub.source0 in
  let first := readSource ["bar"] st in
  let second := readSource ["bar"] first.1 in
  is_Ok first.2 = true /\
  Stub.calls (world first.1) = ["GetParameter /foo/bar"] /\
  second.2 = first.2 /\
  Stub.calls (world second.1) = ["GetParameter /foo/bar"] /\
  second.1 = first.1.
Proof. cbv zeta. repeat split; reflexivity. Qed.

(** A failed read is not cached: after a read while the store is out of
    reach the cache is empty, and the same read once the store is back
    fetches again and succeeds. *)
Example readSource_retry_after_failure :
  let st := mkState Stub.offline Stub.data0 Stub.source0 in
  let first := readSource ["bar"] st in
  let back := mkState (Stub.mkWorld (Stub.table (world first.1)) true
                                    (Stub.calls (world first.1)))
                      (data first.1) (src first.1) in
  let second := readSource ["bar"] back in
  is_Err first.2 = true /\
  cache (data first.1) = ∅ /\
  is_Ok second.2 = true /\
  Stub.calls (world second.1) = ["GetParameter /foo/bar"; "GetParameter /foo/bar"] /\
  dom (cache (data second.1)) = {["paramsbar"]}.
Proof. cbv zeta. repeat split; reflexivity. Qed.

End Evaluation.

(** * Further properties *)

(** ** The root/path splitter and the reference resolver *)

(** X1. The relative path [splitFSMuxURL] returns is never empty, and the
    root it returns always has the separator as its path. *)
Theorem splitFSMuxURL_relative_nonempty (u : url.URL) :
  (splitFSMuxURL u).2 <> "" /\ url.Path (splitFSMuxURL u).1 = "/".
Proof.
  unfold splitFSMuxURL. rewrite TrimPrefix_sep.
  generalize (stripSeparator (url.Path u)). intros stripped.
  destruct u as [sch opq usr hst pth rpth fq rq frg rfrg]. simpl.
  repeat case_bool_decide; simpl; repeat case_bool_decide; simpl;
    split; congruence.
Qed.

(** X2. A root without an opaque component is a fixed point: splitting it
    again gives the same root and the relative path [.]. *)
Theorem splitFSMuxURL_root_fixed (u : url.URL) :
  url.Opaque (splitFSMuxURL u).1 = "" ->
  splitFSMuxURL (splitFSMuxURL u).1 = ((splitFSMuxURL u).1, ".").
Proof.
  unfold splitFSMuxURL. rewrite TrimPrefix_sep.
  generalize (stripSeparator (url.Path u)). intros stripped.
  destruct u as [sch opq usr hst pth rpth fq rq frg rfrg]. simpl.
  repeat case_bool_decide; simpl; intros Hopq; subst; simpl;
    repeat case_bool_decide; simpl; first [reflexivity|congruence].
Qed.

Lemma splitFSMuxURL_root_fixed_witness :
  let u := url.mkURL "http" "" None "example.com" "/foo.json" "" false "type=a" "" "" in
  url.Opaque (splitFSMuxURL u).1 = "" /\
  splitFSMuxURL (splitFSMuxURL u).1
    = (url.mkURL "http" "" None "example.com" "/" "" false "type=a" "" "", ".").
Proof.
  cbv zeta. split; [reflexivity|].
  rewrite (splitFSMuxURL_root_fixed
             (url.mkURL "http" "" None "example.com" "/foo.json" "" false "type=a" "" ""));
    reflexivity.
Defined.

Section MoreResolveURL.
Context `{!url.Lib}.

(** X3. A base query is not kept as written: when the base has a query and
    the relative reference has no query parameters, the resolved query is
    the encoding of the parsed base query (keys sorted, what did not parse
    dropped). *)
Theorem resolveURL_reencodes_base_query (base : url.URL) (rel : string) (relURL : url.URL) :
  url.Parse rel = Ok relURL ->
  url.RawQuery base <> "" ->
  url.Query relURL = ∅ ->
  resolveURL base rel
    = Ok (url.set_RawQuery (url.Encode (url.Query base))
                           (url.ResolveReference base relURL)).
Proof.
  intros Hparse Hbase Hrel. unfold resolveURL. rewrite Hparse, Hrel.
  rewrite bool_decide_eq_false_2 by done. simpl.
  by rewrite map_fold_empty.
Qed.

End MoreResolveURL.

(** ** The aws+smp reader *)


Section MoreAWSSMP.
Context {World : Type} `{!url.Lib} `{!path.Lib} `{!Helpers World}.

(** The path of a source URL: its path, or its opaque part when it has no
    path. *)
Definition sourcePath (sourceURL : url.URL) : string :=
  if bool_decide (url.Path sourceURL = "") && negb (bool_decide (url.Opaque sourceURL = ""))
  then url.Opaque sourceURL else url.Path sourceURL.

Lemma parseDatasourceURLArgs_one (sourceURL : url.URL) (a : string) (parsed : url.URL) :
  url.Parse a = Ok parsed ->
  parseDatasourceURLArgs sourceURL [a] =
  Ok (range_assign (fun val => Join val " ") (url.Query parsed)
        (range_assign (fun val => Join val " ") (url.Query sourceURL) ∅),
      if negb (bool_decide (url.Path parsed = "")) then
        if HasSuffix (url.Path parsed) "/"
        then path.Join [sourcePath sourceURL; url.Path parsed] +:+ "/"
        else path.Join [sourcePath sourceURL; url.Path parsed]
      else sourcePath sourceURL).
Proof. intros Hp. unfold parseDatasourceURLArgs, sourcePath. simpl. by rewrite Hp. Qed.

(** X4. The parameters of [parseDatasourceURLArgs] with one argument: a key
    of the argument's query has the argument's values for it joined with one
    space, and any other key has the values of the source URL's query joined
    with one space. *)
Theorem parseDatasourceURLArgs_params
    (sourceURL : url.URL) (a : string) (parsed : url.URL) (k : string) :
  url.Parse a = Ok parsed ->
  exists params p,
    parseDatasourceURLArgs sourceURL [a] = Ok (params, p) /\
    params !! k =
      match url.Query parsed !! k with
      | Some vals => Some (Join vals " ")
      | None => (fun vals => Join vals " ") <$> url.Query sourceURL !! k
      end.
Proof.
  intros Hp. eexists _, _. split; [by apply parseDatasourceURLArgs_one|].
  rewrite !range_assign_lookup.
  destruct (url.Query parsed !! k); [done|].
  destruct (url.Query sourceURL !! k); [done|]. by rewrite lookup_empty.
Qed.


(** X6. [readAWSSMP] with two or more arguments fails with the
    too-many-arguments error before any fetch: the world is as the creation
    of the client left it, and the media type of the source is not
    written. *)
Theorem readAWSSMP_too_many_arguments
    (source : Source World) (args : list string) (w : World) :
  (2 <= length args)%nat ->
  (readAWSSMP source args w).2
    = Err (tooManyArguments (url.Scheme (URL source)) (length args)) /\
  (readAWSSMP source args w).1.1 = (clientOf source w).1 /\
  mediaType (readAWSSMP source args w).1.2 = mediaType source.
Proof.
  intros Hlen. rewrite readAWSSMP_eq.
  destruct (clientOf source w) as [w0 g].
  unfold parseDatasourceURLArgs. rewrite decide_True by done. done.
Qed.



(** X8. [listAWSSMPParams] cuts as many bytes as the path has off every name
    the store returns, without looking at them: with names at least that
    long it returns [ToJSON] of those suffixes, in the order of the answer,
    and a shorter name is a slice out of range. *)
Theorem listAWSSMPParams_slices
    (source : Source World) (g : awssmpGetter World) (paramPath : string)
    (w w1 : World) (out : ssm.GetParametersByPathOutput) :
  asmpg source = Some g ->
  GetParametersByPathWithContext g (ssm.mkGetParametersByPathInput paramPath) w
    = (w1, Ok out) ->
  let names := map ssm.Name (ssm.outParameters out) in
  (Forall (fun name => (String.length paramPath <= String.length name)%nat) names ->
     listAWSSMPParams source paramPath w
       = (w1, ToJSON (JStrings (map (drop_bytes (String.length paramPath)) names)))) /\
  (Exists (fun name => (String.length name < String.length paramPath)%nat) names ->
     listAWSSMPParams source paramPath w = (w1, Panic "slice bounds out of range")).
Proof.
  intros Hg Hget. cbv zeta. unfold listAWSSMPParams. rewrite Hg, Hget.
  generalize (ssm.outParameters out). intros ps. split.
  - intros Hall.
    assert (Hm : mapM (fun p => slice_from (String.length paramPath) (ssm.Name p)) ps
                 = Some (map (drop_bytes (String.length paramPath)) (map ssm.Name ps))).
    { apply mapM_Some. induction ps as [|p ps IH]; simpl; constructor.
      - unfold slice_from. rewrite decide_True; [done|].
        by inversion Hall.
      - apply IH. by inversion Hall. }
    by rewrite Hm.
  - intros Hex.
    assert (Hm : mapM (fun p => slice_from (String.length paramPath) (ssm.Name p)) ps
                 = None).
    { apply mapM_None. apply Exists_exists in Hex as (name & Hin & Hshort).
      apply list_elem_of_fmap in Hin as (p & -> & Hin).
      apply Exists_exists. exists p. split; [done|].
      unfold slice_from. rewrite decide_False by lia. done. }
    by rewrite Hm.
Qed.

End MoreAWSSMP.

(** ** [readSource]: the filesystem path and the reader path *)

(** The readers [registerReaders] registers. *)
Definition registry : gmap string reader :=
  <["aws+smp" := ReadAWSSMP]>
  (<["consul" := ReadConsul]>
  (<["consul+http" := ReadConsul]>
  (<["consul+https" := ReadConsul]>
  (<["merge" := ReadMerge]>
  (<["stdin" := ReadStdin]> ∅))))).

(** The argument [readSource] resolves against the URL of the source: the
    first one, if any. *)
Definition argOf (args : list string) : string :=
  match args with
  | a :: _ => a
  | [] => ""
  end.

Section MoreReadSource.
Context {World : Type} `{!url.Lib} `{!mime.Lib} `{!path.Lib} `{!Helpers World}
        `{!fsimpl.Lib World} `{!Readers World}.

(** The mux and the readers of a [Data], as their lazy initialization
    leaves them. *)
Definition muxOf (d : Data World) : fsimpl.FSMux World :=
  default fsimpl.NewMux (FSMux d).

Definition readersOf (d : Data World) : gmap string reader :=
  default registry (sourceReaders d).

Definition withMux (d : Data World) : Data World := set_FSMux (Some (muxOf d)) d.

Definition withReaders (d : Data World) : Data World :=
  set_sourceReaders (Some (readersOf d)) d.

Lemma withMux_id (d : Data World) :
  match FSMux d with
  | None => set_FSMux (Some fsimpl.NewMux) d
  | Some _ => d
  end = withMux d.
Proof. unfold withMux, muxOf. destruct d as [srcs rd c eh [mux|]]; reflexivity. Qed.

Lemma lookupReader_eq (scheme : string) (s : state World) :
  lookupReader scheme s =
  (mkState (world s) (withReaders (data s)) (src s),
   match readersOf (data s) !! scheme with
   | Some r => Ok r
   | None => Err (Errorf "scheme %s not registered" [FStr scheme])
   end).
Proof.
  unfold lookupReader, mbind, M_bind, get_data, put_data, withReaders, readersOf.
  destruct s as [w [srcs [readers|] c eh mux] source]; simpl.
  - by destruct (readers !! scheme).
  - change (<["aws+smp":=ReadAWSSMP]> _) with registry.
    by destruct (registry !! scheme).
Qed.

(** X9. [lookupReader] allocates the registry on first use and changes
    nothing else; a second lookup changes nothing at all and gives the same
    answer.  On a fresh [Data] a scheme has a reader exactly when it is one
    of [aws+smp], [consul], [consul+http], [consul+https], [merge] and
    [stdin], and any other scheme is the error that names it. *)
Theorem lookupReader_registry (scheme : string) (s : state World) :
  let s1 := (lookupReader scheme s).1 in
  let r1 := (lookupReader scheme s).2 in
  lookupReader scheme s1 = (s1, r1) /\
  world s1 = world s /\ src s1 = src s /\
  data s1 = set_sourceReaders (sourceReaders (data s1)) (data s) /\
  is_Some (sourceReaders (data s1)) /\
  (sourceReaders (data s) = None ->
     (is_Ok r1 = true <->
        scheme ∈ ["aws+smp"; "consul"; "consul+http"; "consul+https"; "merge"; "stdin"]) /\
     (is_Ok r1 = false ->
        r1 = Err (Errorf "scheme %s not registered" [FStr scheme]))).
Proof.
  cbv zeta. rewrite !lookupReader_eq. simpl.
  split; [|split; [done|split; [done|split; [|split; [by eexists|]]]]].
  - assert (Hd : withReaders (withReaders (data s)) = withReaders (data s)).
    { unfold withReaders, readersOf. by destruct (data s) as [srcs [rd|] c eh mux]. }
    assert (Hr : readersOf (withReaders (data s)) = readersOf (data s)).
    { unfold withReaders, readersOf. by destruct (data s) as [srcs [rd|] c eh mux]. }
    by rewrite Hd, Hr.
  - reflexivity.
  - intros Hnil. unfold readersOf. rewrite Hnil. simpl.
    destruct (registry !! scheme) as [r|] eqn:Hr.
    + split; [|done]. split; [intros _|done].
      unfold registry in Hr.
      repeat (rewrite lookup_insert in Hr; case_decide;
              [subst scheme; set_solver|]).
      by rewrite lookup_empty in Hr.
    + split; [|done]. split; [done|]. intros Hin.
      repeat (apply elem_of_cons in Hin as [->|Hin]; [by vm_compute in Hr|]).
      by apply elem_of_nil in Hin.
Qed.

(** Unfolds the monad of [readSource]. *)
Ltac run_monad :=
  unfold mbind, M_bind, mret, M_ret, get_data, get_src, put_data, pure_result,
    attempt, or_wrap, io, store; simpl.

Lemma fetchSource_prefix (cacheKey : string) (args : list string) (s : state World) :
  fetchSource cacheKey args s =
  fetchSource cacheKey args (mkState (world s) (withMux (data s)) (src s)).
Proof.
  unfold fetchSource. run_monad.
  destruct s as [w [srcs rd c eh [mux|]] source]; reflexivity.
Qed.

(** X10. A file read through a filesystem provider: the entry has the bytes
    of the file and, as content type, the [type] parameter of the resolved
    URL as it is written, or without one the content type of the provider.
    The declared media type of the source and [Source.mimeType] play no
    part, no reader is consulted, and the source is not changed. *)
Theorem readSource_fs_file
    (args : list string) (s : state World) (u : url.URL)
    (fsys : fsimpl.FS World) (f : fsimpl.File World) (fi : fsimpl.FileInfo)
    (data_ : bytes) (w1 w2 w3 w4 : World) :
  cache (data s) !! cacheKeyOf (src s) args = None ->
  resolveURL (URL (src s)) (argOf args) = Ok u ->
  fsimpl.Lookup (muxOf (data s)) (url.String_ (splitFSMuxURL u).1) (world s)
    = (w1, Ok fsys) ->
  fsimpl.Open fsys (splitFSMuxURL u).2 w1 = (w2, Ok f) ->
  fsimpl.Stat f w2 = (w3, Ok fi) ->
  fsimpl.IsDir fi = false ->
  fsimpl.ReadAll f w3 = (w4, Ok data_) ->
  let hint := url.Get (url.Query u) "type" in
  let fc := mkFileContent data_
              (if bool_decide (hint = "") then fsimpl.ContentType fi else hint) in
  readSource args s
    = (mkState w4
         (set_cache (<[cacheKeyOf (src s) args := fc]> (cache (data s)))
                    (withMux (data s)))
         (src s),
       Ok fc).
Proof.
  intros Hmiss Hres Hlook Hopen Hstat Hdir Hread. cbv zeta.
  rewrite (readSource_miss _ _ Hmiss), fetchSource_prefix.
  unfold fetchSource. run_monad. fold (argOf args). rewrite Hres. simpl.
  destruct (splitFSMuxURL u) as [root fname]. simpl in *.
  rewrite Hlook. simpl. rewrite Hopen. simpl. rewrite Hstat. simpl.
  rewrite Hdir. simpl. rewrite Hread. run_monad.
  by destruct (data s).
Qed.

(** X11. A directory read through a filesystem provider: the entry has the
    JSON encoding of the names of the entries and the JSON-array content
    type, whatever the [type] parameter of the resolved URL and the content
    type of the provider are. *)
Theorem readSource_fs_directory
    (args : list string) (s : state World) (u : url.URL)
    (fsys : fsimpl.FS World) (f : fsimpl.File World) (fi : fsimpl.FileInfo)
    (names : list string) (listing : bytes) (w1 w2 w3 w4 : World) :
  cache (data s) !! cacheKeyOf (src s) args = None ->
  resolveURL (URL (src s)) (argOf args) = Ok u ->
  fsimpl.Lookup (muxOf (data s)) (url.String_ (splitFSMuxURL u).1) (world s)
    = (w1, Ok fsys) ->
  fsimpl.Open fsys (splitFSMuxURL u).2 w1 = (w2, Ok f) ->
  fsimpl.Stat f w2 = (w3, Ok fi) ->
  fsimpl.IsDir fi = true ->
  fsimpl.ReadDir fsys (splitFSMuxURL u).2 w3 = (w4, Ok names) ->
  fsimpl.json_Marshal names = Ok listing ->
  let fc := mkFileContent listing jsonArrayMimetype in
  readSource args s
    = (mkState w4
         (set_cache (<[cacheKeyOf (src s) args := fc]> (cache (data s)))
                    (withMux (data s)))
         (src s),
       Ok fc).
Proof.
  intros Hmiss Hres Hlook Hopen Hstat Hdir Hlist Hjson. cbv zeta.
  rewrite (readSource_miss _ _ Hmiss), fetchSource_prefix.
  unfold fetchSource. run_monad. fold (argOf args). rewrite Hres. simpl.
  destruct (splitFSMuxURL u) as [root fname]. simpl in *.
  rewrite Hlook. simpl. rewrite Hopen. simpl. rewrite Hstat. simpl.
  rewrite Hdir. simpl. rewrite Hlist. simpl. rewrite Hjson. run_monad.
  by destruct (data s).
Qed.

(** X12. Once a filesystem provider answers for the URL, its failure is the
    failure of the read: when the provider cannot open the file the result
    is that error with the URL and the name, nothing is cached, and the
    readers are not consulted (the registry is left as it is). *)
Theorem readSource_fs_open_error
    (args : list string) (s : state World) (u : url.URL)
    (fsys : fsimpl.FS World) (err : error) (w1 w2 : World) :
  cache (data s) !! cacheKeyOf (src s) args = None ->
  resolveURL (URL (src s)) (argOf args) = Ok u ->
  fsimpl.Lookup (muxOf (data s)) (url.String_ (splitFSMuxURL u).1) (world s)
    = (w1, Ok fsys) ->
  fsimpl.Open fsys (splitFSMuxURL u).2 w1 = (w2, Err err) ->
  readSource args s
    = (mkState w2 (withMux (data s)) (src s),
       Err (Wrapf err "open (url: %q, name: %q): %w"
                  [FVal (url.String_ (splitFSMuxURL u).1);
                   FStr (splitFSMuxURL u).2])).
Proof.
  intros Hmiss Hres Hlook Hopen.
  rewrite (readSource_miss _ _ Hmiss), fetchSource_prefix.
  unfold fetchSource. run_monad. fold (argOf args). rewrite Hres. simpl.
  destruct (splitFSMuxURL u) as [root fname]. simpl in *.
  rewrite Hlook. simpl. rewrite Hopen. reflexivity.
Qed.

(** X13. A read through a reader with a [type] parameter on the resolved
    URL: the value of the parameter is the content type of the entry as it
    is written.  It is not parsed as a media type, a space in it is not
    turned back into [+], and [Source.mimeType] is not called. *)
Theorem readSource_reader_hint_verbatim
    (args : list string) (s s2 : state World) (u : url.URL)
    (lookupErr : error) (rd : reader) (data_ : bytes) (w1 : World) :
  cache (data s) !! cacheKeyOf (src s) args = None ->
  resolveURL (URL (src s)) (argOf args) = Ok u ->
  fsimpl.Lookup (muxOf (data s)) (url.String_ (splitFSMuxURL u).1) (world s)
    = (w1, Err lookupErr) ->
  readersOf (data s) !! url.Scheme u = Some rd ->
  call_reader rd args (mkState w1 (withReaders (withMux (data s))) (src s))
    = (s2, Ok data_) ->
  url.Get (url.Query u) "type" <> "" ->
  (readSource args s).2
    = Ok (mkFileContent data_ (url.Get (url.Query u) "type")).
Proof.
  intros Hmiss Hres Hlook Hrd Hcall Hhint.
  rewrite (readSource_miss _ _ Hmiss), fetchSource_prefix.
  unfold fetchSource. run_monad. fold (argOf args). rewrite Hres. simpl.
  assert (Hscheme : url.Scheme (splitFSMuxURL u).1 = url.Scheme u).
  { unfold splitFSMuxURL. destruct u; simpl.
    by repeat (case_bool_decide; simpl). }
  destruct (splitFSMuxURL u) as [root fname]. simpl in *.
  rewrite Hlook. simpl. rewrite lookupReader_eq. simpl.
  assert (Hrs : readersOf (withMux (data s)) = readersOf (data s)).
  { by destruct (data s). }
  rewrite Hrs, Hscheme, Hrd. simpl. rewrite Hcall. simpl.
  by rewrite bool_decide_eq_false_2.
Qed.

(** X14. A URL that no filesystem provider and no reader answers for: the
    result is the unregistered-scheme error inside the [lookupReader]
    error, nothing is cached, and no reader has run. *)
Theorem readSource_unregistered_scheme
    (args : list string) (s : state World) (u : url.URL)
    (lookupErr : error) (w1 : World) :
  cache (data s) !! cacheKeyOf (src s) args = None ->
  resolveURL (URL (src s)) (argOf args) = Ok u ->
  fsimpl.Lookup (muxOf (data s)) (url.String_ (splitFSMuxURL u).1) (world s)
    = (w1, Err lookupErr) ->
  readersOf (data s) !! url.Scheme u = None ->
  readSource args s
    = (mkState w1 (withReaders (withMux (data s))) (src s),
       Err (Wrapf (Errorf "scheme %s not registered" [FStr (url.Scheme u)])
                  "lookupReader (url: %q): %w"
                  [FVal (url.String_ (splitFSMuxURL u).1)])) /\
  cache (data (readSource args s).1) = cache (data s).
Proof.
  intros Hmiss Hres Hlook Hrd.
  rewrite (readSource_miss _ _ Hmiss), fetchSource_prefix.
  unfold fetchSource. run_monad. fold (argOf args). rewrite Hres. simpl.
  assert (Hscheme : url.Scheme (splitFSMuxURL u).1 = url.Scheme u).
  { unfold splitFSMuxURL. destruct u; simpl.
    by repeat (case_bool_decide; simpl). }
  destruct (splitFSMuxURL u) as [root fname]. simpl in *.
  rewrite Hlook. simpl. rewrite lookupReader_eq. simpl.
  assert (Hrs : readersOf (withMux (data s)) = readersOf (data s)).
  { by destruct (data s). }
  rewrite Hrs, Hscheme, Hrd. simpl. split; [reflexivity|]. by destruct (data s).
Qed.

(** X15. The cache key is the plain concatenation of alias and arguments, so
    different reads can share it: after a successful read, a read of any
    source with any arguments whose alias and arguments concatenate to the
    same text returns the entry of the first, without fetching. *)
Theorem readSource_key_collision
    (args1 args2 : list string) (s1 s1' : state World) (source2 : Source World)
    (fc : fileContent) :
  readSource args1 s1 = (s1', Ok fc) ->
  Alias source2 +:+ concatArgs args2 = Alias (src s1) +:+ concatArgs args1 ->
  readSource args2 (mkState (world s1') (data s1') source2)
    = (mkState (world s1') (data s1') source2, Ok fc).
Proof.
  intros Hread Hkey. apply readSource_hit. simpl.
  rewrite cacheKeyOf_eq, Hkey, <- cacheKeyOf_eq.
  destruct (cache (data s1) !! cacheKeyOf (src s1) args1) as [cached|] eqn:Hc.
  - rewrite (readSource_hit _ _ _ Hc) in Hread. by injection Hread as <- <-.
  - rewrite (readSource_miss _ _ Hc) in Hread.
    pose proof (triple_fetchSource (fun _ => True) (fun _ _ _ _ _ => Logic.I)
                  _ _ s1 s1' (Ok fc) Logic.I Hread) as (c & _ & ->).
    apply lookup_insert_eq.
Qed.

End MoreReadSource.

(** ** Definitions, lookups and decoding *)

Lemma range_assign_key_lookup {A B} (f : string -> A -> B) (src : gmap string A)
    (dst : gmap string B) (k : string) :
  range_assign_key f src dst !! k =
  match src !! k with
  | Some val => Some (f k val)
  | None => dst !! k
  end.
Proof.
  unfold range_assign_key. revert k.
  apply (map_fold_weak_ind
           (fun r m => forall k, r !! k = match m !! k with
                                          | Some val => Some (f k val)
                                          | None => dst !! k
                                          end)).
  - intros k. by rewrite lookup_empty.
  - intros i x m r Hi IH k. destruct (decide (i = k)) as [->|Hne].
    + by rewrite !lookup_insert_eq.
    + rewrite !lookup_insert_ne by done. apply IH.
Qed.

Section MoreDatasources.
Context {World : Type} `{!url.Lib} `{!mime.Lib} `{!path.Lib} `{!Helpers World}
        `{!fsimpl.Lib World} `{!Readers World} `{!config.Lib} `{!Decoders}.

(** X16. The sources of [FromConfig]: an alias of the context has the URL
    and headers of its context entry, also when the data sources have the
    alias too; any other alias of the data sources has those of its entry.
    Every source carries its alias, no media type and no client, and
    nothing is cached. *)
Theorem FromConfig_sources (cfg : config.Config) (alias : string) :
  Sources (@FromConfig World cfg) !! alias =
    match config.Context_ cfg !! alias with
    | Some c => Some (mkSource alias (config.URL c) (config.Header c) None "")
    | None =>
        (fun d => mkSource alias (config.URL d) (config.Header d) None "")
          <$> config.DataSources cfg !! alias
    end /\
  (forall source, Sources (@FromConfig World cfg) !! alias = Some source ->
     Alias source = alias /\ mediaType source = "" /\ asmpg source = None) /\
  cache (@FromConfig World cfg) = ∅.
Proof.
  assert (Hlook : Sources (@FromConfig World cfg) !! alias =
    match config.Context_ cfg !! alias with
    | Some c => Some (mkSource alias (config.URL c) (config.Header c) None "")
    | None =>
        (fun d => mkSource alias (config.URL d) (config.Header d) None "")
          <$> config.DataSources cfg !! alias
    end).
  { unfold FromConfig. simpl. rewrite !range_assign_key_lookup.
    destruct (config.Context_ cfg !! alias); [done|].
    destruct (config.DataSources cfg !! alias); [done|]. by rewrite lookup_empty. }
  split; [exact Hlook|]. split; [|reflexivity].
  intros source. rewrite Hlook.
  destruct (config.Context_ cfg !! alias); [by intros [= <-]|].
  destruct (config.DataSources cfg !! alias); [by intros [= <-]|done].
Qed.

(** X17. [DefineDatasource]: an empty alias is an error; an alias that is
    defined stays as it is and the call succeeds without looking at the
    value; a new alias with a value that parses is defined with that URL
    and the extra headers of the alias, the other sources and the cache are
    untouched, and defining it again changes nothing. *)
Theorem DefineDatasource_first_wins (d : Data World) (alias value : string) :
  (alias = "" -> is_Err (DefineDatasource d alias value).2 = true /\
                 (DefineDatasource d alias value).1 = d) /\
  (alias <> "" -> is_Some (Sources d !! alias) ->
     DefineDatasource d alias value = (d, Ok "")) /\
  (alias <> "" -> Sources d !! alias = None ->
     forall srcURL, config.ParseSourceURL value = Ok srcURL ->
       let d' := (DefineDatasource d alias value).1 in
       (DefineDatasource d alias value).2 = Ok "" /\
       Sources d' !! alias
         = Some (mkSource alias srcURL (default ∅ (ExtraHeaders d !! alias)) None "") /\
       (forall other, other <> alias -> Sources d' !! other = Sources d !! other) /\
       cache d' = cache d /\
       DatasourceExists d' alias = true /\
       forall value', DefineDatasource d' alias value' = (d', Ok "")).
Proof.
  unfold DefineDatasource, DatasourceExists. split; [|split].
  - intros ->. done.
  - intros Hne Hsome. rewrite bool_decide_eq_false_2 by done.
    by rewrite bool_decide_eq_true_2.
  - intros Hne Hnone srcURL Hparse. cbv zeta.
    rewrite bool_decide_eq_false_2 by done.
    rewrite bool_decide_eq_false_2 by (rewrite Hnone; by intros [? ?]).
    rewrite Hparse. simpl. rewrite lookup_insert_eq.
    split; [done|]. split; [done|]. split; [|split; [done|split]].
    + intros other Hother. by rewrite lookup_insert_ne.
    + by apply bool_decide_eq_true_2.
    + intros value'. by rewrite bool_decide_eq_true_2.
Qed.

(** X18. A successful [lookupSource] returns the source that is registered
    under the alias afterwards, leaves every other source and the cache as
    they are, and is idempotent: the same lookup on the resulting [Data]
    returns the same source and changes nothing.  An alias that is not
    defined and parses as an absolute URL is registered with that URL. *)
Theorem lookupSource_registered (d : Data World) (alias : string) :
  let d' := (lookupSource d alias).1 in
  (forall source, (lookupSource d alias).2 = Ok source ->
     Sources d' !! alias = Some source /\
     (alias <> "" -> Alias source <> "") /\
     lookupSource d' alias = (d', Ok source)) /\
  (forall other, other <> alias -> Sources d' !! other = Sources d !! other) /\
  cache d' = cache d /\
  (Sources d !! alias = None ->
     forall srcURL, url.Parse alias = Ok srcURL -> IsAbs srcURL = true ->
       (lookupSource d alias).2
         = Ok (mkSource alias srcURL (default ∅ (ExtraHeaders d !! alias)) None "")).
Proof.
  assert (Hfix : forall (d0 : Data World) (source : Source World),
            Sources d0 !! alias = Some source ->
            let r := if bool_decide (Alias source = "")
                     then (set_Sources (<[alias := set_Alias alias source]> (Sources d0)) d0,
                           Ok (set_Alias alias source))
                     else (d0, Ok source) in
            (forall source', r.2 = Ok source' ->
               Sources r.1 !! alias = Some source' /\
               (alias <> "" -> Alias source' <> "") /\
               lookupSource r.1 alias = (r.1, Ok source')) /\
            (forall other, other <> alias -> Sources r.1 !! other = Sources d0 !! other) /\
            cache r.1 = cache d0).
  { intros d0 source Hs. cbv zeta. case_bool_decide as Ha; simpl.
    - split; [|split; [|done]].
      + intros ? [= <-]. rewrite lookup_insert_eq. split; [done|]. split; [done|].
        unfold lookupSource. simpl. rewrite lookup_insert_eq. simpl.
        case_bool_decide as Ha'; [|done].
        assert (Hsame : set_Alias alias (set_Alias alias source) = set_Alias alias source)
          by done.
        rewrite Hsame, insert_insert_eq. done.
      + intros other Hother. by rewrite lookup_insert_ne.
    - split; [|done].
      intros ? [= <-]. split; [done|]. split; [done|].
      unfold lookupSource. rewrite Hs. by rewrite bool_decide_eq_false_2. }
  cbv zeta. remember (lookupSource d alias) as r eqn:Hr.
  unfold lookupSource in Hr. cbv zeta in Hr.
  destruct (Sources d !! alias) as [source|] eqn:Hs.
  - destruct (Hfix d source Hs) as (Hr1 & Hr2 & Hr3). cbv zeta in *. subst r.
    split; [exact Hr1|]. split; [exact Hr2|]. split; [exact Hr3|]. done.
  - destruct (url.Parse alias) as [srcURL|err|msg] eqn:Hp.
    + destruct (IsAbs srcURL) eqn:Habs; cbn [negb] in Hr.
      * set (source := mkSource alias srcURL (default ∅ (ExtraHeaders d !! alias)) None "")
          in *.
        set (d0 := set_Sources (<[alias := source]> (Sources d)) d) in *.
        assert (Hs0 : Sources d0 !! alias = Some source) by apply lookup_insert_eq.
        destruct (Hfix d0 source Hs0) as (Hr1 & Hr2 & Hr3). cbv zeta in *. subst r.
        split; [exact Hr1|]. split; [|split].
        -- intros other Hother. rewrite (Hr2 other Hother). subst d0. simpl.
           by rewrite lookup_insert_ne.
        -- by rewrite Hr3.
        -- intros _ ? [= <-] _. subst source. simpl.
           by destruct (bool_decide (alias = "")).
      * subst r. simpl.
        split; [done|]. split; [done|]. split; [done|]. intros _ ? [= <-]. congruence.
    + subst r. simpl. split; [done|]. split; [done|]. split; [done|]. intros _ ? [=].
    + subst r. simpl. split; [done|]. split; [done|]. split; [done|]. intros _ ? [=].
Qed.

End MoreDatasources.

(** ** Reading by alias *)

Section MoreReads.
Context {World : Type} `{!url.Lib} `{!mime.Lib} `{!path.Lib} `{!Helpers World}
        `{!fsimpl.Lib World} `{!Readers World} `{!config.Lib} `{!Decoders}.

(** An alias that [url.Parse] rejects, or parses as a reference without a
    scheme. *)
Definition notAbsolute (alias : string) : Prop :=
  match url.Parse alias with
  | Ok srcURL => IsAbs srcURL = false
  | Err _ => True
  | Panic _ => False
  end.

(** The error of [lookupSource]. *)
Definition undefinedDatasource (alias : string) : error :=
  Errorf "Undefined datasource '%s'" [FStr alias].

Lemma lookupSource_undefined (d : Data World) (alias : string) :
  Sources d !! alias = None -> notAbsolute alias ->
  lookupSource d alias = (d, Err (undefinedDatasource alias)).
Proof.
  unfold notAbsolute, lookupSource. intros -> Hn.
  destruct (url.Parse alias) as [srcURL|err|msg]; [|done|done].
  by rewrite Hn.
Qed.

Lemma lookupSource_defined (d : Data World) (alias : string) (source : Source World) :
  Sources d !! alias = Some source -> Alias source <> "" ->
  lookupSource d alias = (d, Ok source).
Proof.
  unfold lookupSource. intros -> Ha. by rewrite bool_decide_eq_false_2.
Qed.

Lemma lookupSource_alias (d : Data World) (alias : string) (source : Source World) :
  (lookupSource d alias).2 = Ok source -> alias <> "" -> Alias source <> "".
Proof.
  unfold lookupSource. intros Hl Halias.
  destruct (Sources d !! alias) as [source0|].
  - case_bool_decide as Ha; simpl in Hl; injection Hl as <-; done.
  - destruct (url.Parse alias) as [srcURL|err|msg]; [|done|done].
    destruct (IsAbs srcURL); [|done]. simpl in Hl.
    destruct (bool_decide (alias = "")); simpl in Hl; injection Hl as <-; done.
Qed.

Lemma lookupSource_ad_hoc (d : Data World) (alias : string) (srcURL : url.URL) :
  Sources d !! alias = None -> url.Parse alias = Ok srcURL -> IsAbs srcURL = true ->
  is_Ok (lookupSource d alias).2 = true.
Proof.
  unfold lookupSource. intros -> -> ->. simpl.
  by destruct (bool_decide (alias = "")).
Qed.

Lemma readSource_success_cached (args : list string) (s s' : state World)
    (fc : fileContent) :
  readSource args s = (s', Ok fc) ->
  cache (data s') !! cacheKeyOf (src s) args = Some fc.
Proof.
  intros Hread.
  destruct (cache (data s) !! cacheKeyOf (src s) args) as [cached|] eqn:Hc.
  - rewrite (readSource_hit _ _ _ Hc) in Hread. by injection Hread as <- <-.
  - rewrite (readSource_miss _ _ Hc) in Hread.
    pose proof (triple_fetchSource (fun _ => True) (fun _ _ _ _ _ => Logic.I)
                  _ _ s s' (Ok fc) Logic.I Hread) as (c & _ & ->).
    apply lookup_insert_eq.
Qed.

(** X19. [Include] never returns an error: it ends as [readDataSource] does
    on the world and the [Data], returns the bytes of the entry when the
    read succeeds, and dereferences the nil entry when the read fails. *)
Theorem Include_no_error (d : Data World) (alias : string) (args : list string)
    (w : World) :
  (forall err, (Include d alias args w).2 <> Err err) /\
  (Include d alias args w).1 = (readDataSource d alias args w).1 /\
  (forall fc, (readDataSource d alias args w).2 = Ok fc ->
     (Include d alias args w).2 = Ok (b fc)) /\
  (forall err, (readDataSource d alias args w).2 = Err err ->
     (Include d alias args w).2 = Panic "nil pointer dereference").
Proof.
  unfold Include. destruct (readDataSource d alias args w) as [[w' d'] [fc|err|msg]];
    simpl; repeat split; congruence.
Qed.

(** X20. An alias that is not defined and is not an absolute URL: nothing
    is read and nothing changes; [Datasource] returns the
    undefined-datasource error, which names the alias, and [Include] does
    not return it. *)
Theorem Datasource_undefined (d : Data World) (alias : string) (args : list string)
    (w : World) :
  Sources d !! alias = None ->
  notAbsolute alias ->
  Datasource d alias args w = (w, d, Err (undefinedDatasource alias)) /\
  errorMessage (undefinedDatasource alias)
    = "Undefined datasource '" +:+ alias +:+ "'" /\
  Include d alias args w = (w, d, Panic "nil pointer dereference").
Proof.
  intros Hs Hn. unfold Datasource, Include, readDataSource.
  rewrite (lookupSource_undefined _ _ Hs Hn). done.
Qed.

(** X21. The errors of [readDataSource]: either the undefined-datasource
    error, with the world and the [Data] as they were, or the error of
    [readSource] on the source that [lookupSource] found, wrapped with the
    alias. *)
Theorem readDataSource_error (d : Data World) (alias : string) (args : list string)
    (w : World) (err : error) :
  (readDataSource d alias args w).2 = Err err ->
  (err = undefinedDatasource alias /\
   (readDataSource d alias args w).1 = (w, d) /\
   Sources d !! alias = None) \/
  (exists source cause,
     (lookupSource d alias).2 = Ok source /\
     (readSource args (mkState w (lookupSource d alias).1 source)).2 = Err cause /\
     err = Wrapf cause "Couldn't read datasource '%s'" [FStr alias]).
Proof.
  unfold readDataSource.
  destruct (lookupSource d alias) as [d1 [source|e|msg]] eqn:Hl; simpl.
  - destruct (readSource args (mkState w d1 source)) as [s [fc|cause|msg]] eqn:Hr;
      simpl; intros [=]. subst err. right. exists source, cause. by rewrite Hr.
  - intros [= ->]. left. unfold lookupSource in Hl.
    destruct (Sources d !! alias) as [source|].
    { by destruct (bool_decide (Alias source = "")). }
    destruct (url.Parse alias) as [srcURL|e|msg].
    + destruct (IsAbs srcURL); simpl in Hl.
      * by destruct (bool_decide (alias = "")).
      * by injection Hl as <- <-.
    + by injection Hl as <- <-.
    + done.
  - done.
Qed.

(** X22. A successful read by alias can be repeated: when the reader left
    the alias of the source alone, the same read on the resulting world and
    [Data] returns the same entry and changes neither. *)
Theorem readDataSource_repeat (d d' : Data World) (alias : string)
    (args : list string) (w w' : World) (fc : fileContent) (source0 : Source World) :
  alias <> "" ->
  (lookupSource d alias).2 = Ok source0 ->
  readDataSource d alias args w = (w', d', Ok fc) ->
  Alias <$> Sources d' !! alias = Some (Alias source0) ->
  readDataSource d' alias args w' = (w', d', Ok fc).
Proof.
  intros Halias Hlook Hread Hkeep. unfold readDataSource in Hread.
  pose proof (lookupSource_alias d alias _ Hlook Halias) as Hne.
  destruct (lookupSource d alias) as [d1 [source1|e|msg]] eqn:Hl; simpl in *;
    [|done|done].
  injection Hlook as ->.
  destruct (readSource args (mkState w d1 source0)) as [s [fc'|cause|msg]] eqn:Hr;
    [|done|done].
  injection Hread as <- <- <-.
  assert (Hsrc : Sources (after_read alias s) !! alias = Some (src s))
    by apply lookup_insert_eq.
  rewrite Hsrc in Hkeep. injection Hkeep as Hkeep.
  unfold readDataSource.
  rewrite (lookupSource_defined _ _ _ Hsrc) by (rewrite Hkeep; auto).
  assert (Hhit : cache (data (mkState (world s) (after_read alias s) (src s)))
                 !! cacheKeyOf (src (mkState (world s) (after_read alias s) (src s))) args
                 = Some fc').
  { simpl. rewrite cacheKeyOf_eq, Hkeep, <- cacheKeyOf_eq.
    apply (readSource_success_cached _ _ _ _ Hr). }
  rewrite (readSource_hit _ _ _ Hhit). simpl.
  unfold after_read. simpl. rewrite insert_insert_eq. done.
Qed.

(** X23. [DatasourceReachable] on an alias that is defined with an alias of
    its own is [readDataSource] with the outcome as a boolean: true for an
    entry, false for an error. *)
Theorem DatasourceReachable_defined (d : Data World) (alias : string)
    (args : list string) (w : World) (source : Source World) :
  Sources d !! alias = Some source ->
  Alias source <> "" ->
  DatasourceReachable d alias args w =
    ((readDataSource d alias args w).1,
     match (readDataSource d alias args w).2 with
     | Ok _ => Ok true
     | Err _ => Ok false
     | Panic msg => Panic msg
     end).
Proof.
  intros Hs Ha. unfold DatasourceReachable, readDataSource.
  rewrite Hs, (lookupSource_defined _ _ _ Hs Ha).
  by destruct (readSource args (mkState w d source)) as [s [fc|err|msg]].
Qed.

(** X24. [DatasourceReachable] does not define sources: on an alias that is
    an absolute URL and is not defined it answers false without reading and
    leaves the [Data] as it is, while a read of the same alias defines the
    source. *)
Theorem DatasourceReachable_ad_hoc (d : Data World) (alias : string)
    (args : list string) (w : World) (srcURL : url.URL) :
  Sources d !! alias = None ->
  url.Parse alias = Ok srcURL ->
  IsAbs srcURL = true ->
  DatasourceReachable d alias args w = (w, d, Ok false) /\
  DatasourceExists (readDataSource d alias args w).1.2 alias = true.
Proof.
  intros Hs Hp Habs. split.
  - unfold DatasourceReachable. by rewrite Hs.
  - unfold readDataSource.
    pose proof (lookupSource_ad_hoc d alias _ Hs Hp Habs) as Hl.
    destruct (lookupSource d alias) as [d1 [source|err|msg]]; [|done|done].
    destruct (readSource args _) as [s [fc|err|msg]]; simpl;
      apply bool_decide_eq_true_2; unfold after_read; simpl;
      rewrite lookup_insert_eq; eauto.
Qed.

(** ** Decoding *)

(** The media types [parseData] has a decoder for, with their aliases. *)
Definition supportedTypes : list string :=
  [jsonMimetype; jsonArrayMimetype; yamlMimetype; csvMimetype; tomlMimetype;
   envMimetype; textMimetype; "application/x-yaml"; "application/text"].

(** X25. [parseData] depends on the media type only through [mimeAlias],
    the error for an unsupported type included. *)
Theorem parseData_alias (mimeType_ s : string) :
  parseData (mimeAlias mimeType_) s = parseData mimeType_ s.
Proof.
  destruct (decide (mimeType_ = "application/x-yaml")) as [->|Hxy]; [reflexivity|].
  destruct (decide (mimeType_ = "application/text")) as [->|Hat]; [reflexivity|].
  by rewrite mimeAlias_other.
Qed.

(** X26. A media type outside the supported ones is an error that names the
    type as it was given; no decoder is consulted. *)
Theorem parseData_unsupported (mimeType_ s : string) :
  mimeType_ ∉ supportedTypes ->
  parseData mimeType_ s
    = Err (Errorf "Datasources of type %s not yet supported" [FStr mimeType_]).
Proof.
  intros Hn. unfold supportedTypes in Hn.
  rewrite !not_elem_of_cons in Hn.
  destruct Hn as (Hj & Hja & Hy & Hc & Ht & He & Htx & Hxy & Hat & _).
  unfold parseData. rewrite mimeAlias_other by done.
  by rewrite !bool_decide_eq_false_2.
Qed.

Lemma as_value_or_else_Err {A} (first second : result A) (err : error) :
  as_value (or_else first second) = Err err <->
  is_Err first = true /\ second = Err err.
Proof.
  destruct first as [v|e|m]; simpl;
    [split; [done|by intros [? _]] | | split; [done|by intros [? _]]].
  destruct second as [v|e2|m]; simpl; (split; [intros Heq | intros [_ Heq]]);
    try done; by injection Heq as ->.
Qed.

(** X27. The fallback of the JSON and YAML types: the array decoder runs
    only when the first decoder fails, the error of the first decoder is
    never returned, and plain text is returned as it is. *)
Theorem parseData_fallback (s : string) :
  (forall v, JSON s = Ok v -> parseData jsonMimetype s = Ok (PValue v)) /\
  (forall v, YAML s = Ok v -> parseData yamlMimetype s = Ok (PValue v)) /\
  (forall err, parseData jsonMimetype s = Err err <->
     is_Err (JSON s) = true /\ JSONArray s = Err err) /\
  (forall err, parseData yamlMimetype s = Err err <->
     is_Err (YAML s) = true /\ YAMLArray s = Err err) /\
  parseData textMimetype s = Ok (PText s).
Proof.
  assert (Hj : parseData jsonMimetype s = as_value (or_else (JSON s) (JSONArray s)))
    by reflexivity.
  assert (Hy : parseData yamlMimetype s = as_value (or_else (YAML s) (YAMLArray s)))
    by reflexivity.
  rewrite Hj, Hy. split; [|split; [|split; [|split]]].
  - by intros v ->.
  - by intros v ->.
  - intros err. apply as_value_or_else_Err.
  - intros err. apply as_value_or_else_Err.
  - reflexivity.
Qed.

(** ** Listing *)

(** X28. [ListDatasources] returns the defined aliases, each once, in
    ascending byte order. *)
Theorem ListDatasources_sorted (d : Data World) :
  StronglySorted String.le (ListDatasources d) /\
  NoDup (ListDatasources d) /\
  (forall alias, alias ∈ ListDatasources d <-> DatasourceExists d alias = true).
Proof.
  unfold ListDatasources, DatasourceExists. cbv zeta.
  assert (Hperm : merge_sort String.le (map fst (map_to_list (Sources d)))
                  ≡ₚ map fst (map_to_list (Sources d)))
    by apply merge_sort_Permutation.
  split; [|split].
  - apply StronglySorted_merge_sort; apply _.
  - rewrite Hperm. apply NoDup_fst_map_to_list.
  - intros alias. rewrite Hperm. rewrite bool_decide_eq_true.
    change (map fst (map_to_list (Sources d))) with (fst <$> map_to_list (Sources d)).
    rewrite list_elem_of_fmap. split.
    + intros [[k v] [-> Hin]]. apply elem_of_map_to_list in Hin. by exists v.
    + intros [v Hv]. exists (alias, v). split; [done|]. by apply elem_of_map_to_list.
Qed.

End MoreReads.

(** * The further properties on the reference implementation *)

Section MoreEvaluation.

#[local] Existing Instance Ref.url_lib.
#[local] Existing Instance Ref.mime_lib.
#[local] Existing Instance Ref.path_lib.
#[local] Existing Instance Stub.helpers.
#[local] Existing Instance Stub.readers.
#[local] Existing Instance Sniff.decoders.

(** X3 on a base query with an empty pair, a key without a value and keys
    out of order. *)
Lemma resolveURL_reencodes_base_query_witness :
  resolveURL (absURL "http" "x" "/a/b/" "b=2&a=1&&c") "bar"
    = Ok (absURL "http" "x" "/a/b/bar" "a=1&b=2&c=").
Proof.
  assert (Hparse : url.Parse "bar" = Ok (url.set_Path "bar" url.zero)) by reflexivity.
  rewrite (resolveURL_reencodes_base_query
             (absURL "http" "x" "/a/b/" "b=2&a=1&&c") "bar" _ Hparse);
    [reflexivity|discriminate|reflexivity].
Defined.

(** X4 for a key that both queries have, twice in the argument. *)
Lemma parseDatasourceURLArgs_params_witness :
  exists params p,
    parseDatasourceURLArgs (absURL "aws+smp" "" "/foo" "q=0&r=9") ["bar/?q=1&q=2"]
      = Ok (params, p) /\
    params !! "q" = Some "1 2".
Proof.
  assert (Hparse : url.Parse "bar/?q=1&q=2"
                   = Ok (url.set_RawQuery "q=1&q=2" (url.set_Path "bar/" url.zero)))
    by reflexivity.
  destruct (parseDatasourceURLArgs_params
              (absURL "aws+smp" "" "/foo" "q=0&r=9") "bar/?q=1&q=2" _ "q" Hparse)
    as (params & p & Hargs & Hq).
  exists params, p. split; [exact Hargs|]. rewrite Hq. reflexivity.
Defined.


(** X6 with two arguments: no call of the store. *)
Lemma readAWSSMP_too_many_arguments_witness :
  (readAWSSMP Stub.source0 ["a"; "b"] Stub.world0).2
    = Err (tooManyArguments "aws+smp" 2) /\
  Stub.calls (readAWSSMP Stub.source0 ["a"; "b"] Stub.world0).1.1 = [].
Proof.
  destruct (readAWSSMP_too_many_arguments Stub.source0 ["a"; "b"] Stub.world0)
    as (Herr & Hworld & _); [simpl; lia|].
  split; [exact Herr|]. rewrite Hworld. reflexivity.
Defined.

(** X8 on the directory [/foo/] of the stub store. *)
Lemma listAWSSMPParams_slices_witness :
  listAWSSMPParams (set_asmpg (Some Stub.getter) Stub.source0) "/foo/" Stub.world0
    = (Stub.logged "GetParametersByPath /foo/" Stub.world0,
       ToJSON (JStrings ["bar"; "baz"])).
Proof.
  assert (Hget : GetParametersByPathWithContext Stub.getter
                   (ssm.mkGetParametersByPathInput "/foo/") Stub.world0
                 = (Stub.logged "GetParametersByPath /foo/" Stub.world0,
                    Ok (ssm.mkGetParametersByPathOutput
                          [ssm.mkParameter "/foo/bar" "String" "1" 1;
                           ssm.mkParameter "/foo/baz" "String" "2" 1] None)))
    by reflexivity.
  destruct (listAWSSMPParams_slices
              (set_asmpg (Some Stub.getter) Stub.source0) Stub.getter "/foo/"
              Stub.world0 _ _ eq_refl Hget) as [Hall _].
  rewrite Hall; [reflexivity|]. repeat constructor; simpl; lia.
Defined.

(** X13 on the stub store: the [+] of the parameter is read as a space and
    stays one. *)
Lemma readSource_reader_hint_verbatim_witness :
  contentType <$>
    result_value (@readSource _ _ _ _ _ Stub.fs_lib _ ["bar?type=application/array+json"]
                    (mkState Stub.world0 Stub.data0 Stub.source0)).2
    = Some "application/array json".
Proof.
  set (args := ["bar?type=application/array+json"]).
  set (s := mkState Stub.world0 Stub.data0 Stub.source0).
  set (u := absURL "aws+smp" "" "/bar" "type=application/array+json").
  assert (Hmiss : cache (data s) !! cacheKeyOf (src s) args = None) by reflexivity.
  assert (Hres : resolveURL (URL (src s)) (argOf args) = Ok u) by reflexivity.
  assert (Hlook : fsimpl.Lookup (@muxOf _ Stub.fs_lib (data s))
                    (url.String_ (splitFSMuxURL u).1) (world s)
                  = (Stub.world0, Err (LibError "no filesystem registered")))
    by reflexivity.
  assert (Hrd : readersOf (data s) !! url.Scheme u = Some ReadAWSSMP) by reflexivity.
  set (st := mkState Stub.world0
               (withReaders (@withMux _ Stub.fs_lib (data s))) (src s)).
  assert (Hcall : call_reader ReadAWSSMP args st
                  = ((call_reader ReadAWSSMP args st).1,
                     Ok (default "" (result_value (call_reader ReadAWSSMP args st).2))))
    by reflexivity.
  rewrite (@readSource_reader_hint_verbatim _ _ _ _ _ Stub.fs_lib _
             args s _ u _ _ _ _ Hmiss Hres Hlook Hrd Hcall); [reflexivity|discriminate].
Defined.

(** X14 for a scheme of no provider and no reader. *)
Lemma readSource_unregistered_scheme_witness :
  (@readSource _ _ _ _ _ Stub.fs_lib _ []
     (mkState Stub.world0 Stub.data0
        (mkSource "other" (absURL "foo" "x" "/y" "") ∅ None ""))).2
    = Err (Wrapf (Errorf "scheme %s not registered" [FStr "foo"])
                 "lookupReader (url: %q): %w" [FVal "foo://x/"]).
Proof.
  set (s := mkState Stub.world0 Stub.data0
              (mkSource "other" (absURL "foo" "x" "/y" "") ∅ None "")).
  set (u := absURL "foo" "x" "/y" "").
  assert (Hmiss : cache (data s) !! cacheKeyOf (src s) [] = None) by reflexivity.
  assert (Hres : resolveURL (URL (src s)) (argOf []) = Ok u) by reflexivity.
  assert (Hlook : fsimpl.Lookup (@muxOf _ Stub.fs_lib (data s))
                    (url.String_ (splitFSMuxURL u).1) (world s)
                  = (Stub.world0, Err (LibError "no filesystem registered")))
    by reflexivity.
  assert (Hrd : readersOf (data s) !! url.Scheme u = None) by reflexivity.
  destruct (@readSource_unregistered_scheme _ _ _ _ _ Stub.fs_lib _
              [] s u _ _ Hmiss Hres Hlook Hrd) as [Hread _].
  rewrite Hread. reflexivity.
Defined.

(** X15: the alias [params] with the argument [/bar], and the alias
    [params/] with the argument [bar]. *)
Lemma readSource_key_collision_witness :
  let first := @readSource _ _ _ _ _ Stub.fs_lib _ ["/bar"]
                 (mkState Stub.world0 Stub.data0 Stub.source0) in
  let other := mkSource "params/" (absURL "http" "example.com" "/" "") ∅ None "" in
  is_Ok first.2 = true /\
  (@readSource _ _ _ _ _ Stub.fs_lib _ ["bar"]
     (mkState (world first.1) (data first.1) other)).2 = first.2.
Proof.
  cbv zeta. split; [reflexivity|].
  set (s1 := mkState Stub.world0 Stub.data0 Stub.source0).
  set (other := mkSource "params/" (absURL "http" "example.com" "/" "") ∅ None "").
  set (first := @readSource _ _ _ _ _ Stub.fs_lib _ ["/bar"] s1).
  assert (Hfirst : first = (first.1, Ok (default (mkFileContent "" "")
                                          (result_value first.2))))
    by reflexivity.
  rewrite (@readSource_key_collision _ _ _ _ _ Stub.fs_lib _
             ["/bar"] ["bar"] s1 first.1 other _ Hfirst); reflexivity.
Defined.

(** X10 on the file [tmp/foo.json], with a [type] parameter on the URL. *)
Lemma readSource_fs_file_witness :
  (@readSource _ _ _ _ _ MemFS.fs_lib _ []
     (MemFS.stateOf "/tmp/foo.json" "type=text/x+y")).2
    = Ok (mkFileContent "{}" "text/x y").
Proof.
  set (s := MemFS.stateOf "/tmp/foo.json" "type=text/x+y").
  set (u := MemFS.fileURL "/tmp/foo.json" "type=text%2Fx+y").
  assert (Hmiss : cache (data s) !! cacheKeyOf (src s) [] = None) by reflexivity.
  assert (Hres : resolveURL (URL (src s)) (argOf []) = Ok u) by reflexivity.
  assert (Hlook : fsimpl.Lookup (@muxOf _ MemFS.fs_lib (data s))
                    (url.String_ (splitFSMuxURL u).1) (world s)
                  = (Stub.world0, Ok MemFS.fsys)) by reflexivity.
  assert (Hopen : fsimpl.Open MemFS.fsys (splitFSMuxURL u).2 Stub.world0
                  = (Stub.logged "Open tmp/foo.json" Stub.world0,
                     Ok (MemFS.file "{}" "application/json"))) by reflexivity.
  rewrite (@readSource_fs_file _ _ _ _ _ MemFS.fs_lib _
             [] s u _ _ _ _ _ _ _ _ Hmiss Hres Hlook Hopen eq_refl eq_refl eq_refl).
  reflexivity.
Defined.

(** X11 on the directory [tmp], with a [type] parameter on the URL. *)
Lemma readSource_fs_directory_witness :
  exists listing,
    Stub.toJSON (JStrings ["bar.txt"; "foo.json"]) = Ok listing /\
    (@readSource _ _ _ _ _ MemFS.fs_lib _ []
       (MemFS.stateOf "/tmp" "type=text/plain")).2
      = Ok (mkFileContent listing "application/array+json").
Proof.
  set (s := MemFS.stateOf "/tmp" "type=text/plain").
  set (u := MemFS.fileURL "/tmp" "type=text%2Fplain").
  assert (Hmiss : cache (data s) !! cacheKeyOf (src s) [] = None) by reflexivity.
  assert (Hres : resolveURL (URL (src s)) (argOf []) = Ok u) by reflexivity.
  assert (Hlook : fsimpl.Lookup (@muxOf _ MemFS.fs_lib (data s))
                    (url.String_ (splitFSMuxURL u).1) (world s)
                  = (Stub.world0, Ok MemFS.fsys)) by reflexivity.
  assert (Hopen : fsimpl.Open MemFS.fsys (splitFSMuxURL u).2 Stub.world0
                  = (Stub.logged "Open tmp" Stub.world0, Ok MemFS.dir)) by reflexivity.
  eexists. split; [reflexivity|].
  rewrite (@readSource_fs_directory _ _ _ _ _ MemFS.fs_lib _
             [] s u _ _ _ _ _ _ _ _ _ Hmiss Hres Hlook Hopen eq_refl eq_refl eq_refl
             eq_refl).
  reflexivity.
Defined.

(** X12 on a name the tree does not have. *)
Lemma readSource_fs_open_error_witness :
  (@readSource _ _ _ _ _ MemFS.fs_lib _ [] (MemFS.stateOf "/tmp/none" "")).2
    = Err (Wrapf (LibError "file does not exist") "open (url: %q, name: %q): %w"
                 [FVal "file:///"; FStr "tmp/none"]) /\
  cache (data (@readSource _ _ _ _ _ MemFS.fs_lib _ []
                 (MemFS.stateOf "/tmp/none" "")).1) = ∅.
Proof.
  set (s := MemFS.stateOf "/tmp/none" "").
  set (u := MemFS.fileURL "/tmp/none" "").
  assert (Hmiss : cache (data s) !! cacheKeyOf (src s) [] = None) by reflexivity.
  assert (Hres : resolveURL (URL (src s)) (argOf []) = Ok u) by reflexivity.
  assert (Hlook : fsimpl.Lookup (@muxOf _ MemFS.fs_lib (data s))
                    (url.String_ (splitFSMuxURL u).1) (world s)
                  = (Stub.world0, Ok MemFS.fsys)) by reflexivity.
  assert (Hopen : fsimpl.Open MemFS.fsys (splitFSMuxURL u).2 Stub.world0
                  = (Stub.logged "Open tmp/none" Stub.world0,
                     Err (LibError "file does not exist"))) by reflexivity.
  rewrite (@readSource_fs_open_error _ _ _ _ _ MemFS.fs_lib _
             [] s u _ _ _ _ Hmiss Hres Hlook Hopen).
  split; reflexivity.
Defined.

End MoreEvaluation.

Section MoreEvaluationByAlias.

#[local] Existing Instance Ref.url_lib.
#[local] Existing Instance Ref.mime_lib.
#[local] Existing Instance Ref.path_lib.
#[local] Existing Instance Stub.helpers.
#[local] Existing Instance Stub.fs_lib.
#[local] Existing Instance Stub.readers.
#[local] Existing Instance Sniff.decoders.

(** X20 on an alias nobody defined. *)
Lemma Datasource_undefined_witness :
  Datasource Stub.data0 "nope" [] Stub.world0
    = (Stub.world0, Stub.data0, Err (undefinedDatasource "nope")) /\
  errorMessage (undefinedDatasource "nope") = "Undefined datasource 'nope'" /\
  Include Stub.data0 "nope" [] Stub.world0
    = (Stub.world0, Stub.data0, Panic "nil pointer dereference").
Proof.
  assert (Hnone : Sources Stub.data0 !! "nope" = None) by reflexivity.
  assert (Hrel : notAbsolute "nope") by reflexivity.
  destruct (Datasource_undefined Stub.data0 "nope" [] Stub.world0 Hnone Hrel)
    as (Hd & Hmsg & Hi).
  split; [exact Hd|]. split; [|exact Hi]. rewrite Hmsg. reflexivity.
Defined.

(** X21 on a read of the stub store while it is out of reach. *)
Lemma readDataSource_error_witness :
  exists cause,
    (readDataSource Stub.data0 "params" ["bar"] Stub.offline).2
      = Err (Wrapf cause "Couldn't read datasource '%s'" [FStr "params"]).
Proof.
  set (err := Wrapf (LibError "RequestError: send request failed")
                    "Couldn't read datasource '%s'" [FStr "params"]).
  assert (Hread : (readDataSource Stub.data0 "params" ["bar"] Stub.offline).2
                  = Err (Wrapf (Wrapf (LibError "RequestError: send request failed")
                                      "Error reading aws+smp from AWS using GetParameter with input %v"
                                      [FVal "/foo/bar"])
                               "Couldn't read datasource '%s'" [FStr "params"])).
  { reflexivity. }
  destruct (readDataSource_error Stub.data0 "params" ["bar"] Stub.offline _ Hread)
    as [(Hundef & _)|(source & cause & _ & _ & Hwrap)]; [discriminate|].
  exists cause. rewrite Hread. by rewrite Hwrap.
Defined.

(** X22 on the stub store: the second read makes no call. *)
Lemma readDataSource_repeat_witness :
  let first := readDataSource Stub.data0 "params" ["bar"] Stub.world0 in
  is_Ok first.2 = true /\
  (readDataSource first.1.2 "params" ["bar"] first.1.1).2 = first.2 /\
  Stub.calls (readDataSource first.1.2 "params" ["bar"] first.1.1).1.1
    = ["GetParameter /foo/bar"].
Proof.
  cbv zeta.
  set (first := readDataSource Stub.data0 "params" ["bar"] Stub.world0).
  assert (Halias : "params" <> "") by discriminate.
  assert (Hlook : (lookupSource Stub.data0 "params").2 = Ok Stub.source0) by reflexivity.
  assert (Hfirst : first = (first.1.1, first.1.2,
                            Ok (default (mkFileContent "" "") (result_value first.2))))
    by reflexivity.
  assert (Hkeep : Alias <$> Sources first.1.2 !! "params" = Some (Alias Stub.source0))
    by reflexivity.
  split; [reflexivity|].
  rewrite (readDataSource_repeat Stub.data0 first.1.2 "params" ["bar"]
             Stub.world0 first.1.1 _ Stub.source0 Halias Hlook Hfirst Hkeep).
  split; reflexivity.
Defined.

(** X23 on the stub store, in reach and out of reach. *)
Lemma DatasourceReachable_defined_witness :
  (DatasourceReachable Stub.data0 "params" ["bar"] Stub.world0).2 = Ok true /\
  (DatasourceReachable Stub.data0 "params" ["bar"] Stub.offline).2 = Ok false.
Proof.
  assert (Hsrc : Sources Stub.data0 !! "params" = Some Stub.source0) by reflexivity.
  assert (Halias : Alias Stub.source0 <> "") by discriminate.
  rewrite (DatasourceReachable_defined Stub.data0 "params" ["bar"] Stub.world0
             Stub.source0 Hsrc Halias).
  rewrite (DatasourceReachable_defined Stub.data0 "params" ["bar"] Stub.offline
             Stub.source0 Hsrc Halias).
  split; reflexivity.
Defined.

(** X26 on a type without a decoder. *)
Lemma parseData_unsupported_witness :
  parseData "application/octet-stream" "{}"
    = Err (Errorf "Datasources of type %s not yet supported"
                  [FStr "application/octet-stream"]).
Proof.
  apply parseData_unsupported. unfold supportedTypes.
  rewrite !not_elem_of_cons. repeat split; try discriminate. apply not_elem_of_nil.
Defined.

End MoreEvaluationByAlias.

Section MoreEvaluationAbsolute.

#[local] Existing Instance Abs.url_lib.
#[local] Existing Instance Ref.mime_lib.
#[local] Existing Instance Ref.path_lib.
#[local] Existing Instance Stub.helpers.
#[local] Existing Instance Stub.fs_lib.
#[local] Existing Instance Stub.readers.

(** X24 on a URL of the stub store used as an alias: the read succeeds and
    defines the source, and the store is not asked whether it is
    reachable. *)
Lemma DatasourceReachable_ad_hoc_witness :
  (DatasourceReachable Stub.data0 "aws+smp:///foo/bar" [] Stub.world0).2 = Ok false /\
  is_Ok (readDataSource Stub.data0 "aws+smp:///foo/bar" [] Stub.world0).2 = true /\
  DatasourceExists (readDataSource Stub.data0 "aws+smp:///foo/bar" [] Stub.world0).1.2
    "aws+smp:///foo/bar" = true.
Proof.
  assert (Hnone : Sources Stub.data0 !! "aws+smp:///foo/bar" = None) by reflexivity.
  assert (Hparse : url.Parse "aws+smp:///foo/bar" = Ok (absURL "aws+smp" "" "/foo/bar" ""))
    by reflexivity.
  destruct (DatasourceReachable_ad_hoc Stub.data0 "aws+smp:///foo/bar" [] Stub.world0
              _ Hnone Hparse eq_refl) as [Hreach Hdef].
  rewrite Hreach. split; [reflexivity|]. split; [reflexivity|exact Hdef].
Defined.

End MoreEvaluationAbsolute.

(** ** The cases of the test suite on the provider in memory *)

Section Tests.

#[local] Existing Instance Ref.url_lib.
#[local] Existing Instance Ref.mime_lib.
#[local] Existing Instance Ref.path_lib.
#[local] Existing Instance Stub.helpers.
#[local] Existing Instance MemFS.fs_lib.
#[local] Existing Instance Stub.readers.
#[local] Existing Instance Sniff.decoders.

(** [TestInclude]: the bytes of the file. *)
Example TestInclude :
  (Include (MemFS.dataOf "/tmp/bar.txt" "") "files" [] Stub.world0).2 = Ok "hello".
Proof. reflexivity. Qed.

(** [TestDatasource]: the type of the argument chooses the decoder, and an
    alias that is not defined is an error. *)
Example TestDatasource :
  (Datasource (MemFS.dataOf "/tmp/foo.json" "") "files" ["?type=application/json"]
     Stub.world0).2 = Ok (PValue "{}") /\
  (Datasource (MemFS.dataOf "/tmp/bar.txt" "") "files" [] Stub.world0).2
    = Ok (PText "hello") /\
  is_Err (Datasource (MemFS.dataOf "/tmp/foo.json" "") "bar" [] Stub.world0).2 = true.
Proof. repeat split; reflexivity. Qed.

(** [TestDatasourceReachable]: a file of the tree, and a path it does not
    have. *)
Example TestDatasourceReachable :
  (DatasourceReachable (MemFS.dataOf "/tmp/foo.json" "") "files" [] Stub.world0).2
    = Ok true /\
  (DatasourceReachable (MemFS.dataOf "/bogus" "") "files" [] Stub.world0).2 = Ok false.
Proof. split; reflexivity. Qed.

(** [TestDatasourceExists] and [TestListDatasources]. *)
Example TestListDatasources :
  let foo := mkSource "foo" url.zero ∅ None "" in
  let bar := mkSource "bar" url.zero ∅ None "" in
  let d : Data Stub.World := mkData {["foo" := foo; "bar" := bar]} None ∅ ∅ None in
  DatasourceExists d "foo" = true /\
  DatasourceExists d "baz" = false /\
  ListDatasources d = ["bar"; "foo"].
Proof. repeat split; reflexivity. Qed.

End Tests.
